(** * Pokesn: the response-shape extractors of [snd.py]

    A shallow embedding of the three pure helpers of [src/snd.py]

      - [extract_cards_from_response]  (the "Shape Extractor"),
      - [extract_card_id]              (the "Card ID Extractor"),
      - [extract_price_info]           (the "Price Walker" and its summary),

    over the values that [json.loads] produces, followed by the properties
    the specification states about them; then of [search_trading_cards]
    and of the two methods of [SnkrdunkScraper] in [src/scraper.py], with
    the HTTP transport as a parameter, and of what the code shows about
    them.

    Modelling choices.
      - A decoded JSON value is [json]: [None], [bool], [int] (unbounded, [Z]),
        [float] (IEEE-754 binary64, the [spec_float] of the Standard Library,
        with its own correctly rounded operations), [str], [list], [dict].
        A [dict] is an association list in insertion order, because the walker
        iterates [obj.items()] and the order of [all_prices] is observable.
      - Python exceptions are values: [result A] is [Ok a] or [Raise e].
      - The closure [walk] mutates [price_info["all_prices"]]; the list is
        threaded through [walk] as explicit state.
      - [str] is a byte string (UTF-8).  [lower] folds the ASCII letters;
        no other character lowers to a letter run that completes one of
        ["price"], ["amount"], ["value"], so the key test is the one of the
        source.  The glyph U+00A5 is removed as the byte pair that encodes
        it.  [float(s)] reads ASCII digits and strips ASCII white space; the
        digits and spaces of other scripts, which the interpreter also
        accepts, are not modelled.  None of the general theorems below
        depends on which strings [float] accepts.
      - The keys of a [dict] are unique; no theorem needs it.
      - The recursion limit of the interpreter is not modelled: [walk] is
        structural recursion on the value. *)

From Stdlib Require Import ZArith List String Ascii Bool Lia.
From Stdlib Require Import Floats.SpecFloat.
From Stdlib Require Import DecimalString.
Import ListNotations.

Local Open Scope string_scope.
Local Open Scope list_scope.
Local Open Scope Z_scope.

(* ===================================================================== *)
(** ** Exceptions as values *)
(* ===================================================================== *)

Inductive exn : Type :=
| TypeError
| KeyError
| ValueError
| OverflowError
| ZeroDivisionError.

Inductive result (A : Type) : Type :=
| Ok (a : A)
| Raise (e : exn).

Arguments Ok {A} a.
Arguments Raise {A} e.

Definition bind {A B : Type} (m : result A) (k : A -> result B) : result B :=
  match m with
  | Ok a => k a
  | Raise e => Raise e
  end.

Notation "x <- m ;; k" := (bind m (fun x => k))
  (at level 61, m at next level, right associativity).

Definition returns {A : Type} (m : result A) : Prop := exists a, m = Ok a.

Definition raises {A : Type} (m : result A) : Prop := exists e, m = Raise e.

(* ===================================================================== *)
(** ** Strings: the [str] methods the source calls *)
(* ===================================================================== *)

Module PyStr.

(** [c.lower()] on one ASCII character. *)
Definition lower_ascii (c : ascii) : ascii :=
  let n := nat_of_ascii c in
  if (Nat.leb 65 n && Nat.leb n 90)%bool then ascii_of_nat (n + 32) else c.

(** [s.lower()]. *)
Fixpoint lower (s : string) : string :=
  match s with
  | EmptyString => EmptyString
  | String c s' => String (lower_ascii c) (lower s')
  end.

(** [sub in s] for two strings. *)
Fixpoint contains (sub s : string) : bool :=
  if prefix sub s then true
  else match s with
       | EmptyString => false
       | String _ s' => contains sub s'
       end.

(** [s.replace(old, new)] for a non-empty [old]: occurrences are replaced
    left to right and do not overlap.  [skip] counts the characters of a
    matched occurrence that remain to be dropped. *)
Fixpoint replace_from (old new : string) (skip : nat) (s : string) : string :=
  match s with
  | EmptyString => EmptyString
  | String c s' =>
      match skip with
      | S n => replace_from old new n s'
      | O =>
          if prefix old s
          then new ++ replace_from old new (String.length old - 1) s'
          else String c (replace_from old new O s')
      end
  end.

Definition replace (old new s : string) : string := replace_from old new O s.

(** [sep.join(parts)]. *)
Fixpoint join (sep : string) (parts : list string) : string :=
  match parts with
  | [] => ""
  | [p] => p
  | p :: rest => p ++ sep ++ join sep rest
  end.

(** The glyph U+00A5 (yen sign), bytes C2 A5. *)
Definition yen : string :=
  String (ascii_of_nat 194) (String (ascii_of_nat 165) EmptyString).

(** [str(n)] for an [int]. *)
Definition of_int (n : Z) : string := NilZero.string_of_int (Z.to_int n).

End PyStr.

(* ===================================================================== *)
(** ** Floats: binary64 *)
(* ===================================================================== *)

Module PyFloat.

Definition float : Type := spec_float.

Definition prec : Z := 53.
Definition emax : Z := 1024.

Definition zero : float := S754_zero false.

Definition add (x y : float) : float := SFadd prec emax x y.
Definition div (x y : float) : float := SFdiv prec emax x y.
Definition ltb (x y : float) : bool := SFltb x y.
Definition leb (x y : float) : bool := SFleb x y.

(** [x > 0]. *)
Definition gt0 (x : float) : bool := ltb zero x.

(** The binary64 nearest to the integer [n] (ties to even); an integer too
    large for the format rounds to an infinity. *)
Definition round_int (n : Z) : float := binary_normalize prec emax n 0 false.

Definition is_infinity (x : float) : bool :=
  match x with
  | S754_infinity _ => true
  | _ => false
  end.

(** [float(n)] for an [int]: raises [OverflowError] when [n] is too large. *)
Definition of_int (n : Z) : result float :=
  let f := round_int n in
  if is_infinity f then Raise OverflowError else Ok f.

(** The binary64 nearest to [m * 10^e], for [m >= 0]. *)
Definition of_decimal (m e : Z) : float :=
  match m with
  | Zpos p =>
      if 0 <=? e then round_int (m * 10 ^ e)
      else div (S754_finite false p 0)
               (S754_finite false (Z.to_pos (10 ^ (- e))) 0)
  | _ => zero
  end.

Definition neg (x : float) : float := SFopp x.
Definition sub (x y : float) : float := SFsub prec emax x y.
Definition abs (x : float) : float := SFabs x.

Definition is_finite_nonzero (x : float) : bool :=
  match x with
  | S754_finite _ _ _ => true
  | _ => false
  end.

(** The summation of floats of CPython 3.12 and later: [hi] is the running
    sum, [lo] the running compensation for the low-order bits it lost. *)
Definition cs_add (total : float * float) (x : float) : float * float :=
  let '(hi, lo) := total in
  let t := add hi x in
  if leb (abs x) (abs hi)
  then (t, add lo (add (sub hi t) x))
  else (t, add lo (add (sub x t) hi)).

Definition cs_to_float (total : float * float) : float :=
  let '(hi, lo) := total in
  if is_finite_nonzero lo then add hi lo else hi.

Definition sum_compensated (l : list float) : float :=
  cs_to_float (fold_left cs_add l (zero, zero)).

(** A float above zero in the order of the format: a positive finite
    number or the positive infinity. *)
Definition positive_float (x : float) : Prop :=
  match x with
  | S754_finite false _ _ | S754_infinity false => True
  | _ => False
  end.

(** Among positive floats the comparison of the format is the
    lexicographic order on exponent and mantissa, with the infinity on
    top. *)
Definition key_le (x y : float) : Prop :=
  match x, y with
  | S754_finite false m1 e1, S754_finite false m2 e2 =>
      e1 < e2 \/ (e1 = e2 /\ (m1 <= m2)%positive)
  | S754_finite false _ _, S754_infinity false => True
  | S754_infinity false, S754_infinity false => True
  | _, _ => False
  end.

End PyFloat.

Export PyFloat(float).


(* ===================================================================== *)
(** ** [float(s)] for a [str] *)
(* ===================================================================== *)

Module FloatOfStr.

Definition is_space (c : ascii) : bool :=
  let n := nat_of_ascii c in
  (Nat.eqb n 32 || (Nat.leb 9 n && Nat.leb n 13))%bool.

Definition is_digit (c : ascii) : bool :=
  let n := nat_of_ascii c in (Nat.leb 48 n && Nat.leb n 57)%bool.

Definition digit_val (c : ascii) : Z := Z.of_nat (nat_of_ascii c) - 48.

Fixpoint lstrip (s : string) : string :=
  match s with
  | String c s' => if is_space c then lstrip s' else s
  | EmptyString => EmptyString
  end.

Fixpoint rev_onto (s acc : string) : string :=
  match s with
  | String c s' => rev_onto s' (String c acc)
  | EmptyString => acc
  end.

Definition rev (s : string) : string := rev_onto s EmptyString.

(** [s.strip()] restricted to ASCII white space. *)
Definition strip (s : string) : string := rev (lstrip (rev (lstrip s))).

(** Underscores are accepted only between two digits and are dropped;
    anything else about them is an error.  [prev] is the previous
    character. *)
Fixpoint drop_underscores (prev : option ascii) (s : string) : option string :=
  let prev_digit := match prev with Some p => is_digit p | None => false end in
  let prev_under := match prev with Some "_"%char => true | _ => false end in
  match s with
  | EmptyString => if prev_under then None else Some EmptyString
  | String "_"%char s' =>
      if prev_digit then drop_underscores (Some "_"%char) s' else None
  | String c s' =>
      if (prev_under && negb (is_digit c))%bool then None
      else option_map (String c) (drop_underscores (Some c) s')
  end.

(** A maximal run of digits: the value accumulated onto [acc], the number
    of digits read, and the rest of the input. *)
Fixpoint take_digits (s : string) (acc : Z) (cnt : Z) : Z * Z * string :=
  match s with
  | String c s' =>
      if is_digit c then take_digits s' (10 * acc + digit_val c) (cnt + 1)
      else (acc, cnt, s)
  | EmptyString => (acc, cnt, s)
  end.

(** An optional sign: [true] for a minus. *)
Definition take_sign (s : string) : bool * string :=
  match s with
  | String "-"%char s' => (true, s')
  | String "+"%char s' => (false, s')
  | _ => (false, s)
  end.

Definition signed (neg : bool) (x : float) : float :=
  if neg then PyFloat.neg x else x.

(** The exponent part after the mantissa: [None] when the input is not
    consumed to its end. *)
Definition take_exponent (s : string) : option Z :=
  match s with
  | EmptyString => Some 0
  | String c s' =>
      if (Ascii.eqb c "e" || Ascii.eqb c "E")%bool then
        let '(eneg, s1) := take_sign s' in
        let '(e, cnt, s2) := take_digits s1 0 0 in
        if (0 <? cnt) then
          match s2 with
          | EmptyString => Some (if eneg then - e else e)
          | _ => None
          end
        else None
      else None
  end.

(** A decimal numeral, [inf], [infinity] or [nan], with an optional sign. *)
Definition parse (s : string) : option float :=
  let '(neg, s1) := take_sign s in
  let low := PyStr.lower s1 in
  if (String.eqb low "inf" || String.eqb low "infinity")%bool
  then Some (S754_infinity neg)
  else if String.eqb low "nan" then Some S754_nan
  else
    let '(ip, ci, s2) := take_digits s1 0 0 in
    let '(m, cf, s3) :=
      match s2 with
      | String "."%char s2' => take_digits s2' ip 0
      | _ => (ip, 0, s2)
      end in
    if (0 <? ci + cf) then
      match take_exponent s3 with
      | Some e => Some (signed neg (PyFloat.of_decimal m (e - cf)))
      | None => None
      end
    else None.

(** [float(s)]: [None] stands for the [ValueError] of a string that is
    not a number. *)
Definition of_str (s : string) : option float :=
  match drop_underscores None (strip s) with
  | Some s' => parse s'
  | None => None
  end.

End FloatOfStr.

(* ===================================================================== *)
(** ** Decoded JSON values *)
(* ===================================================================== *)

#[warnings="-register-all"]
Inductive json : Type :=
| JNull
| JBool (b : bool)
| JInt (n : Z)
| JFloat (f : float)
| JStr (s : string)
| JList (l : list json)
| JDict (d : list (string * json)).

(** Induction over nested lists and dictionaries. *)
Fixpoint json_induction (P : json -> Prop)
    (Hnull : P JNull)
    (Hbool : forall b, P (JBool b))
    (Hint : forall n, P (JInt n))
    (Hfloat : forall f, P (JFloat f))
    (Hstr : forall s, P (JStr s))
    (Hlist : forall l, Forall P l -> P (JList l))
    (Hdict : forall d, Forall (fun kv => P (snd kv)) d -> P (JDict d))
    (v : json) {struct v} : P v :=
  let rec := json_induction P Hnull Hbool Hint Hfloat Hstr Hlist Hdict in
  match v with
  | JNull => Hnull
  | JBool b => Hbool b
  | JInt n => Hint n
  | JFloat f => Hfloat f
  | JStr s => Hstr s
  | JList l =>
      Hlist l ((fix all (l : list json) : Forall P l :=
                  match l with
                  | [] => Forall_nil P
                  | x :: l' => Forall_cons x (rec x) (all l')
                  end) l)
  | JDict d =>
      Hdict d ((fix all (d : list (string * json))
                  : Forall (fun kv => P (snd kv)) d :=
                  match d with
                  | [] => Forall_nil _
                  | kv :: d' =>
                      Forall_cons (P := fun kv => P (snd kv)) kv
                                  (rec (snd kv)) (all d')
                  end) d)
  end.

Definition dict : Type := list (string * json).

(** [d.get(k)]: the value bound to [k], if any. *)
Fixpoint lookup (k : string) (d : dict) : option json :=
  match d with
  | [] => None
  | (k', v) :: d' => if String.eqb k k' then Some v else lookup k d'
  end.

(* ===================================================================== *)
(** ** The operators of Python the helpers apply to a decoded value *)
(* ===================================================================== *)

Definition has_key (k : string) (d : dict) : bool :=
  match lookup k d with
  | Some _ => true
  | None => false
  end.

(** [k in obj] for a string [k]: key membership on a [dict], element
    membership on a [list], substring test on a [str]; the other values are
    not containers. *)
Definition py_in (k : string) (obj : json) : result bool :=
  match obj with
  | JDict d => Ok (has_key k d)
  | JList l =>
      Ok (existsb (fun x => match x with
                            | JStr s => String.eqb k s
                            | _ => false
                            end) l)
  | JStr s => Ok (PyStr.contains k s)
  | JNull | JBool _ | JInt _ | JFloat _ => Raise TypeError
  end.

(** [obj[k]] for a string [k]. *)
Definition py_getitem (obj : json) (k : string) : result json :=
  match obj with
  | JDict d =>
      match lookup k d with
      | Some v => Ok v
      | None => Raise KeyError
      end
  | _ => Raise TypeError
  end.

(** A [for] loop whose body updates a state and may raise. *)
Section ForEach.
Context {A S : Type}.
Variable body : A -> S -> result S.

Fixpoint for_each (items : list A) (s : S) : result S :=
  match items with
  | [] => Ok s
  | x :: rest => s' <- body x s ;; for_each rest s'
  end.
End ForEach.

(* ===================================================================== *)
(** ** [extract_cards_from_response] *)
(* ===================================================================== *)

Definition top_keys : list string :=
  ["items"; "list"; "data"; "results"; "cards"; "products"].

Definition nested_keys : list string :=
  ["items"; "list"; "results"; "cards"].

(** The loop
      [for key in keys: if key in obj and isinstance(obj[key], list): return obj[key]]
    [Some l] is the early [return]; [None] is the loop running to its end. *)
Fixpoint probe (keys : list string) (obj : json) : result (option (list json)) :=
  match keys with
  | [] => Ok None
  | key :: rest =>
      present <- py_in key obj ;;
      if present then
        v <- py_getitem obj key ;;
        match v with
        | JList l => Ok (Some l)
        | _ => probe rest obj
        end
      else probe rest obj
  end.

Definition extract_cards_from_response (response_data : json)
  : result (list json) :=
  let cards := [] in
  match response_data with
  | JDict _ =>
      found <- probe top_keys response_data ;;
      match found with
      | Some l => Ok l
      | None =>
          has_data <- py_in "data" response_data ;;
          if has_data then
            inner <- py_getitem response_data "data" ;;
            match inner with
            | JDict _ =>
                found' <- probe nested_keys inner ;;
                match found' with
                | Some l => Ok l
                | None => Ok cards
                end
            | _ => Ok cards
            end
          else Ok cards
      end
  | _ => Ok cards
  end.

(* ===================================================================== *)
(** ** [extract_card_id] *)
(* ===================================================================== *)

Definition id_fields : list string :=
  ["id"; "cardId"; "tradingCardId"; "productId"; "item_id"].

Section CardId.

(** [repr] of a [float] (shortest digits that round-trip) and of a [str]
    (quoting and escaping) belong to the interpreter; [str(v)] is built
    from them. *)
Variable float_repr : float -> string.
Variable str_repr : string -> string.

Fixpoint py_repr (v : json) : string :=
  match v with
  | JNull => "None"
  | JBool true => "True"
  | JBool false => "False"
  | JInt n => PyStr.of_int n
  | JFloat f => float_repr f
  | JStr s => str_repr s
  | JList l => "[" ++ PyStr.join ", " (map py_repr l) ++ "]"
  | JDict d =>
      "{" ++ PyStr.join ", "
               (map (fun kv => str_repr (fst kv) ++ ": " ++ py_repr (snd kv)) d)
          ++ "}"
  end%string.

(** [str(v)]. *)
Definition py_str (v : json) : string :=
  match v with
  | JStr s => s
  | _ => py_repr v
  end.

(** The loop [for field in id_fields: if field in card_item: return str(card_item[field])]. *)
Fixpoint first_field (fields : list string) (card_item : json)
  : result (option string) :=
  match fields with
  | [] => Ok None
  | field :: rest =>
      present <- py_in field card_item ;;
      if present then
        v <- py_getitem card_item field ;;
        Ok (Some (py_str v))
      else first_field rest card_item
  end.

Definition extract_card_id (card_item : json) : result (option string) :=
  first_field id_fields card_item.

End CardId.

(* ===================================================================== *)
(** ** [extract_price_info] *)
(* ===================================================================== *)

Definition price_keys : list string := ["price"; "amount"; "value"].

(** [any(price_key in key.lower() for price_key in [...])]. *)
Definition is_price_key (key : string) : bool :=
  let key_lower := PyStr.lower key in
  existsb (fun price_key => PyStr.contains price_key key_lower) price_keys.

(** [value.replace(",", "").replace(yen, "").replace("$", "")]. *)
Definition strip_currency (value : string) : string :=
  PyStr.replace "$" "" (PyStr.replace PyStr.yen "" (PyStr.replace "," "" value)).

(** [bool] is a subclass of [int]: [True] is 1 and [False] is 0. *)
Definition int_of_bool (b : bool) : Z := if b then 1 else 0.

(** [price_info["all_prices"].append(float(n))] guarded by [n > 0]. *)
Definition record_int (n : Z) (all_prices : list float) : result (list float) :=
  if 0 <? n then
    f <- PyFloat.of_int n ;;
    Ok (all_prices ++ [f])
  else Ok all_prices.

(** The body of the first loop of [walk] for one [(key, value)] item. *)
Definition record_price (kv : string * json) (all_prices : list float)
  : result (list float) :=
  let '(key, value) := kv in
  if is_price_key key then
    match value with
    | JBool b => record_int (int_of_bool b) all_prices
    | JInt n => record_int n all_prices
    | JFloat x =>
        if PyFloat.gt0 x then Ok (all_prices ++ [x]) else Ok all_prices
    | JStr s =>
        match FloatOfStr.of_str (strip_currency s) with
        | Some price_val =>
            if PyFloat.gt0 price_val then Ok (all_prices ++ [price_val])
            else Ok all_prices
        | None => Ok all_prices
        end
    | JNull | JList _ | JDict _ => Ok all_prices
    end
  else Ok all_prices.

(** The closure [walk]; the list it appends to is passed in and out. *)
Fixpoint walk (obj : json) (all_prices : list float) : result (list float) :=
  match obj with
  | JDict d =>
      recorded <- for_each record_price d all_prices ;;
      for_each (fun kv => walk (snd kv)) d recorded
  | JList l => for_each walk l all_prices
  | JNull | JBool _ | JInt _ | JFloat _ | JStr _ => Ok all_prices
  end.

Record price_info : Type := {
  lowest_price : option float;
  highest_price : option float;
  average_price : option float;
  all_prices : list float
}.

(** The steps of [min] and of [max]: the item replaces the best so far when
    it is strictly less, or strictly greater. *)
Definition keep_less (best item : float) : float :=
  if PyFloat.ltb item best then item else best.

Definition keep_greater (best item : float) : float :=
  if PyFloat.ltb best item then item else best.

(** [min(l)]: the first of the least items. *)
Definition py_min (l : list float) : result float :=
  match l with
  | [] => Raise ValueError
  | x :: rest => Ok (fold_left keep_less rest x)
  end.

(** [max(l)]: the first of the greatest items. *)
Definition py_max (l : list float) : result float :=
  match l with
  | [] => Raise ValueError
  | x :: rest => Ok (fold_left keep_greater rest x)
  end.

(** [sum(l)] on CPython before 3.12: additions from the left, starting from
    0, each one rounded.  (CPython 3.12 and later carry the rounding errors
    in a second float, [PyFloat.sum_compensated]; [py_sum_with] has both.) *)
Definition py_sum (l : list float) : float := fold_left PyFloat.add l PyFloat.zero.

(** [x / n] for a [float] and an [int]. *)
Definition truediv (x : float) (n : Z) : result float :=
  if n =? 0 then Raise ZeroDivisionError
  else
    d <- PyFloat.of_int n ;;
    Ok (PyFloat.div x d).

Definition extract_price_info (data : json) : result price_info :=
  prices <- walk data [] ;;
  match prices with
  | [] =>
      Ok {| lowest_price := None; highest_price := None;
            average_price := None; all_prices := prices |}
  | _ :: _ =>
      lo <- py_min prices ;;
      hi <- py_max prices ;;
      avg <- truediv (py_sum prices) (Z.of_nat (List.length prices)) ;;
      Ok {| lowest_price := Some lo; highest_price := Some hi;
            average_price := Some avg; all_prices := prices |}
  end.

(* ===================================================================== *)
(** ** Vocabulary of the specification *)
(* ===================================================================== *)

(** The mapping [d] binds [k] to a sequence. *)
Definition binds_list (d : dict) (k : string) : Prop :=
  exists l, lookup k d = Some (JList l).

(** [l] is the sequence bound to the first key of [keys], in the order of
    [keys], that [d] binds to a sequence. *)
Definition first_list (keys : list string) (d : dict) (l : list json) : Prop :=
  exists before key after,
    keys = before ++ key :: after /\
    (forall k, In k before -> ~ binds_list d k) /\
    lookup key d = Some (JList l).

(** No key of [keys] is bound to a sequence. *)
Definition no_list (keys : list string) (d : dict) : Prop :=
  forall k, In k keys -> ~ binds_list d k.

(** [v] is the value of the first field of [fields], in the order of
    [fields], that is present in [d]. *)
Definition first_present (fields : list string) (d : dict) (v : json) : Prop :=
  exists before field after,
    fields = before ++ field :: after /\
    (forall k, In k before -> lookup k d = None) /\
    lookup field d = Some v.

(** No field of [fields] is present. *)
Definition none_present (fields : list string) (d : dict) : Prop :=
  forall k, In k fields -> lookup k d = None.

(** Every integer of the value is below [2 ^ 1023], so that [float] can
    convert it. *)
Fixpoint small_ints (v : json) : bool :=
  match v with
  | JInt n => n <? 2 ^ 1023
  | JList l => forallb small_ints l
  | JDict d => forallb (fun kv => small_ints (snd kv)) d
  | JNull | JBool _ | JFloat _ | JStr _ => true
  end.

(** [x] is a least element of [l] in the order of the floats. *)
Definition is_min (x : float) (l : list float) : Prop :=
  In x l /\ forall y, In y l -> PyFloat.leb x y = true.

(** [x] is a greatest element of [l]. *)
Definition is_max (x : float) (l : list float) : Prop :=
  In x l /\ forall y, In y l -> PyFloat.leb y x = true.

(** The mean as binary64 arithmetic computes it: the sum accumulated from
    the left, each addition rounded, divided by the count, rounded. *)
Definition float_mean (l : list float) : float :=
  PyFloat.div (fold_left PyFloat.add l PyFloat.zero)
              (PyFloat.round_int (Z.of_nat (List.length l))).

(** Every float of [l] is above zero. *)
Definition all_positive (l : list float) : Prop :=
  Forall (fun x => PyFloat.gt0 x = true) l.

(** [acc'] is [acc] followed by further items. *)
Definition extends {A : Type} (acc acc' : list A) : Prop :=
  exists added, acc' = acc ++ added.

(* ===================================================================== *)
(** ** Values used in the examples *)
(* ===================================================================== *)

Module Sample.

(** Binary64 numbers, as mantissa and exponent: [m * 2 ^ e]. *)
Definition f_tenth : float := S754_finite false 7205759403792794 (-56).
Definition f_tenth_up : float := S754_finite false 7205759403792795 (-56).
Definition f_1 : float := S754_finite false 4503599627370496 (-52).
Definition f_5 : float := S754_finite false 5629499534213120 (-50).
Definition f_500 : float := S754_finite false 8796093022208000 (-44).
Definition f_750 : float := S754_finite false 6597069766656000 (-43).
Definition f_1000 : float := S754_finite false 8796093022208000 (-43).
Definition f_1234 : float := S754_finite false 5427189394702336 (-42).

(** The exact value of a finite float, when it is an integer. *)
Definition integer_value (x : float) : option Z :=
  match x with
  | S754_zero _ => Some 0
  | S754_finite s m e =>
      let a := if 0 <=? e then Zpos m * 2 ^ e else Zpos m / 2 ^ (- e) in
      if (0 <=? e) || (Zpos m mod 2 ^ (- e) =? 0)
      then Some (if s then - a else a) else None
  | _ => None
  end.

(** [{"streetwears":[{"id":1,"minPrice":"$1,000"},{"id":2,"minPrice":500}]}] *)
Definition streetwears : json :=
  JDict [("streetwears",
          JList [JDict [("id", JInt 1); ("minPrice", JStr "$1,000")];
                 JDict [("id", JInt 2); ("minPrice", JInt 500)]])].

(** [[{"price":0.1},{"price":0.1},{"price":0.1}]] *)
Definition three_tenths : json :=
  JList [JDict [("price", JFloat f_tenth)];
         JDict [("price", JFloat f_tenth)];
         JDict [("price", JFloat f_tenth)]].


(** [{"price":0,"amount":-3,"value":"-5","minPrice":"0","maxPrice":-0.5,"listPrice":500}] *)
Definition mixed_signs : json :=
  JDict [("price", JInt 0); ("amount", JInt (-3)); ("value", JStr "-5");
         ("minPrice", JStr "0");
         ("maxPrice", JFloat (S754_finite true 4503599627370496 (-53)));
         ("listPrice", JInt 500)].

(** [{"minPrice": "1,234"}] *)
Definition one_listing : json := JDict [("minPrice", JStr "1,234")].

(** [{"price": "abc", "next": [{"minPrice": "1,234"}], "amount": 5}] *)
Definition bad_then_good : json :=
  JDict [("price", JStr "abc");
         ("next", JList [JDict [("minPrice", JStr "1,234")]]);
         ("amount", JInt 5)].

(** [{"name": "x", "inStock": true, "isValueSet": true, "hasPrice": false}] *)
Definition flags_items : dict :=
  [("name", JStr "x"); ("inStock", JBool true);
   ("isValueSet", JBool true); ("hasPrice", JBool false)].

(** [{"name": "Pikachu", "productId": 7, "cardId": 42}] *)
Definition two_ids : dict :=
  [("name", JStr "Pikachu"); ("productId", JInt 7); ("cardId", JInt 42)].

(** [{"name": "Pikachu", "productId": 7, "cardId": null}] *)
Definition null_card : dict :=
  [("name", JStr "Pikachu"); ("productId", JInt 7); ("cardId", JNull)].

End Sample.

(* ===================================================================== *)
(** ** More vocabulary for the price walker *)
(* ===================================================================== *)

(** *** The two summations of the interpreter

    [sum] on a list of floats is not the same function on every
    interpreter the program runs on.  CPython before 3.12 adds from the
    left and rounds each addition ([py_sum]).  CPython 3.12 and later keep
    the rounding error of each addition in a second float and add it at the
    end ([PyFloat.sum_compensated]).  The interpreter starts from the first
    item and a compensation of zero; so does the first step of
    [PyFloat.sum_compensated] from [(0, 0)] on a finite price, and on an
    infinite one the compensation is not a number, as the interpreter's is
    from its second step on, and is left out at the end.  The repository
    asks for no version: both are modelled, and [extract_price_info] above
    is the first of the two. *)
Inductive summation : Type :=
| Plain
| Compensated.

(** [sum(l)] under either summation. *)
Definition py_sum_with (a : summation) (l : list float) : float :=
  match a with
  | Plain => py_sum l
  | Compensated => PyFloat.sum_compensated l
  end.

(** [extract_price_info] under either summation. *)
Definition extract_price_info_with (a : summation) (data : json)
  : result price_info :=
  prices <- walk data [] ;;
  match prices with
  | [] =>
      Ok {| lowest_price := None; highest_price := None;
            average_price := None; all_prices := prices |}
  | _ :: _ =>
      lo <- py_min prices ;;
      hi <- py_max prices ;;
      avg <- truediv (py_sum_with a prices) (Z.of_nat (List.length prices)) ;;
      Ok {| lowest_price := Some lo; highest_price := Some hi;
            average_price := Some avg; all_prices := prices |}
  end.

(** The mean as binary64 arithmetic computes it under either summation:
    the sum of the interpreter divided by the count, rounded. *)
Definition float_mean_with (a : summation) (l : list float) : float :=
  PyFloat.div (py_sum_with a l) (PyFloat.round_int (Z.of_nat (List.length l))).

(** A float of the format: canonical mantissa and exponent in range.  The
    type [float] also has representations that no binary64 has. *)
Definition valid_float (x : float) : bool :=
  valid_binary PyFloat.prec PyFloat.emax x.

(** [[{"price":0.1}] * 10] *)
Definition ten_tenths : json :=
  JList (repeat (JDict [("price", JFloat Sample.f_tenth)]) 10).




(** [item_of v key value]: some mapping inside [v], at any depth below
    sequences and mappings, has the item [(key, value)]. *)
Inductive item_of : json -> string -> json -> Prop :=
| item_here (d : dict) (key : string) (value : json) :
    In (key, value) d -> item_of (JDict d) key value
| item_under_key (d : dict) (k0 : string) (child : json)
                 (key : string) (value : json) :
    In (k0, child) d -> item_of child key value -> item_of (JDict d) key value
| item_in_list (l : list json) (child : json) (key : string) (value : json) :
    In child l -> item_of child key value -> item_of (JList l) key value.

(** A string or a sequence that holds the name of an id field: as a
    substring for a string, as an element for a sequence. *)
Definition names_id_field (v : json) : bool :=
  match v with
  | JStr s => existsb (fun field => PyStr.contains field s) id_fields
  | JList l =>
      existsb (fun field =>
                 existsb (fun x => match x with
                                   | JStr s => String.eqb field s
                                   | _ => false
                                   end) l) id_fields
  | _ => false
  end.

(* ===================================================================== *)
(** ** The HTTP boundary and [search_trading_cards] *)
(* ===================================================================== *)

(** What a request gives: the decoded body, or the exception that the
    request, the status check or the decoding raised, as its [str(e)]. *)
Inductive fetched (A : Type) : Type :=
| Fetched (body : A)
| Failed (message : string).

Arguments Fetched {A} body.
Arguments Failed {A} message.

Section Search.

(** [requests.get(url, headers=headers, params=params, timeout=timeout)]
    followed by [r.raise_for_status()] and [r.json()]. *)
Variable requests_get_json : string -> dict -> option dict -> Z -> fetched json.

Definition get_json_headers : dict :=
  [("Accept", JStr "application/json");
   ("User-Agent",
    JStr "Mozilla/5.0 (Windows NT 10.0; Win64; x64) AppleWebKit/537.36");
   ("Referer", JStr "https://snkrdunk.com/")].

Definition get_json (url : string) (params : option dict) : fetched json :=
  requests_get_json url get_json_headers params 15.

(** The three endpoints tried, each with its parameters. *)
Definition endpoints (keyword : string) (page per_page : Z)
  : list (string * dict) :=
  [("https://snkrdunk.com/en/v1/trading-cards",
    [("keyword", JStr keyword); ("page", JInt page);
     ("perPage", JInt per_page); ("sortType", JStr "popular")]);
   ("https://snkrdunk.com/en/v1/search",
    [("q", JStr keyword); ("type", JStr "trading-cards");
     ("page", JInt page); ("perPage", JInt per_page)]);
   ("https://snkrdunk.com/en/v1/products/search",
    [("keyword", JStr keyword); ("category", JStr "trading-cards");
     ("page", JInt page); ("limit", JInt per_page)])].

(** The entry appended to [errors] for an endpoint that failed. *)
Definition error_entry (config : string * dict) (message : string) : json :=
  JDict [("url", JStr (fst config)); ("params", JDict (snd config));
         ("error", JStr message)].

(** The loop over the endpoints: the first that answers ends it. *)
Fixpoint try_endpoints (configs : list (string * dict)) (errors : list json)
  : json :=
  match configs with
  | [] => JDict [("success", JBool false); ("errors", JList errors)]
  | config :: rest =>
      match get_json (fst config) (Some (snd config)) with
      | Fetched result =>
          JDict [("success", JBool true); ("data", result);
                 ("endpoint", JStr (fst config))]
      | Failed message =>
          try_endpoints rest (errors ++ [error_entry config message])
      end
  end.

Definition search_trading_cards (keyword : string) (page per_page : Z) : json :=
  try_endpoints (endpoints keyword page per_page) [].

Definition card_url (card_id : string) : string :=
  "https://snkrdunk.com/en/v1/trading-cards/" ++ card_id.

Definition get_used_listings (card_id : string) (per_page page : Z)
  : fetched json :=
  get_json (card_url card_id ++ "/used-listings")
           (Some [("perPage", JInt per_page); ("page", JInt page);
                  ("sortType", JStr "latest"); ("isOnlyOnSale", JStr "false")]).

Definition get_related_single_cards (card_id : string) (per_page page : Z)
  : fetched json :=
  get_json (card_url card_id ++ "/related-single-cards")
           (Some [("perPage", JInt per_page); ("page", JInt page)]).

Definition get_card_detail (card_id : string) : fetched json :=
  get_json (card_url card_id) None.

(** The message an endpoint fails with ([None] when it answers). *)
Definition failure_of (config : string * dict) : option string :=
  match get_json (fst config) (Some (snd config)) with
  | Fetched _ => None
  | Failed message => Some message
  end.

End Search.

(* ===================================================================== *)
(** ** [scraper.py]: [SnkrdunkScraper] *)
(* ===================================================================== *)

Module Scraper.

(** The exceptions that the [except Exception] clauses of the class catch
    and print: a failed request, [AttributeError] (a value without [.get]),
    [TypeError] (a value that cannot be iterated), [ValueError] (a string
    [int] rejects). *)
Inductive error : Type :=
| HttpError (message : string)
| AttributeError
| NotIterable
| InvalidInt.

Inductive attempt (A : Type) : Type :=
| Done (a : A)
| Caught (e : error).

Arguments Done {A} a.
Arguments Caught {A} e.

Definition and_then {A B : Type} (m : attempt A) (k : A -> attempt B) : attempt B :=
  match m with
  | Done a => k a
  | Caught e => Caught e
  end.

Notation "x <~ m ;; k" := (and_then m (fun x => k))
  (at level 61, m at next level, right associativity).

Definition base_url : string := "https://snkrdunk.com/en".
Definition api_url : string := "https://snkrdunk.com/en/v1".

Definition headers : dict :=
  [("User-Agent",
    JStr "Mozilla/5.0 (Windows NT 10.0; Win64; x64) AppleWebKit/537.36 (KHTML, like Gecko) Chrome/120.0.0.0 Safari/537.36");
   ("Accept", JStr "application/json, text/plain, */*");
   ("Accept-Language", JStr "en-US,en;q=0.9")].

(** [obj.get(key, default)]: only a [dict] has the method. *)
Definition py_get (obj : json) (key : string) (default : json) : attempt json :=
  match obj with
  | JDict d =>
      Done (match lookup key d with
            | Some v => v
            | None => default
            end)
  | _ => Caught AttributeError
  end.

Fixpoint chars (s : string) : list json :=
  match s with
  | EmptyString => []
  | String c s' => JStr (String c EmptyString) :: chars s'
  end.

(** The items a [for] loop draws from a value: the elements of a
    sequence, the keys of a mapping, the characters of a string (all of
    them strings; the loop below only needs that much of them). *)
Definition py_iter (obj : json) : attempt (list json) :=
  match obj with
  | JList l => Done l
  | JDict d => Done (map (fun kv => JStr (fst kv)) d)
  | JStr s => Done (chars s)
  | JNull | JBool _ | JInt _ | JFloat _ => Caught NotIterable
  end.

Section Cards.

Variable float_repr : float -> string.
Variable str_repr : string -> string.

(** [requests.get(url, params=params, headers=headers)] followed by
    [raise_for_status()] and [.json()]. *)
Variable requests_get_json : string -> dict -> dict -> fetched json.

(** The dictionary appended to [cards] for one item. *)
Definition card_of (item : json) : attempt json :=
  id <~ py_get item "id" JNull ;;
  name <~ py_get item "name" JNull ;;
  thumbnail <~ py_get item "thumbnailUrl" JNull ;;
  min_price <~ py_get item "minPrice" JNull ;;
  url_id <~ py_get item "id" JNull ;;
  Done (JDict [("id", id); ("name", name); ("thumbnail", thumbnail);
               ("min_price", min_price);
               ("url", JStr (base_url ++ "/trading-cards/"
                             ++ py_str float_repr str_repr url_id))]).

(** The loop [for item in ...: cards.append({...})]. *)
Fixpoint collect_cards (items : list json) (cards : list json)
  : attempt (list json) :=
  match items with
  | [] => Done cards
  | item :: rest =>
      card <~ card_of item ;;
      collect_cards rest (cards ++ [card])
  end.

(** The body of the [try]. *)
Definition cards_of_response (keyword : string) : attempt (list json) :=
  match requests_get_json (api_url ++ "/search")
                          [("keyword", JStr keyword); ("perPage", JInt 21);
                           ("page", JInt 1)] headers with
  | Failed message => Caught (HttpError message)
  | Fetched data =>
      streetwears <~ py_get data "streetwears" (JList []) ;;
      items <~ py_iter streetwears ;;
      collect_cards items []
  end.

(** [search_cards]: the list returned and the exception printed, if any. *)
Definition search_cards (keyword : string) : list json * option error :=
  match cards_of_response keyword with
  | Done cards => (cards, None)
  | Caught e => ([], Some e)
  end.

End Cards.

(** The card built from a mapping. *)
Definition card_of_dict (float_repr : float -> string) (str_repr : string -> string)
    (d : dict) : json :=
  let field k := match lookup k d with Some v => v | None => JNull end in
  JDict [("id", field "id"); ("name", field "name");
         ("thumbnail", field "thumbnailUrl"); ("min_price", field "minPrice");
         ("url", JStr (base_url ++ "/trading-cards/"
                       ++ py_str float_repr str_repr (field "id")))].

Definition is_dict (v : json) : bool :=
  match v with
  | JDict _ => true
  | _ => false
  end.

Definition as_dict (v : json) : dict :=
  match v with
  | JDict d => d
  | _ => []
  end.

(** *** [get_recent_prices]

    The page is a sequence of code points.  [\s] and [\d] of the pattern
    are the Unicode classes: the white space is a fixed set, the decimal
    digits and their values are the table of the interpreter. *)

Definition text : Type := list N.

(** [\s]: the code points for which [str.isspace] holds. *)
Definition is_space (c : N) : bool :=
  ((9 <=? c) && (c <=? 13) || (28 <=? c) && (c <=? 32) ||
   (c =? 133) || (c =? 160) || (c =? 5760) ||
   (8192 <=? c) && (c <=? 8202) || (c =? 8232) || (c =? 8233) ||
   (c =? 8239) || (c =? 8287) || (c =? 12288))%N.

(** [,] and [$]. *)
Definition comma : N := 44.
Definition dollar : N := 36.
Definition word_SOLD : text := [83; 79; 76; 68]%N.
Definition word_US : text := [85; 83]%N.

(** [t] starts with [lit]: the rest of [t]. *)
Fixpoint literal (lit t : text) : option text :=
  match lit, t with
  | [], _ => Some t
  | c :: lit', c' :: t' => if (c =? c')%N then literal lit' t' else None
  | _ :: _, [] => None
  end.

Fixpoint skip_spaces (t : text) : text :=
  match t with
  | c :: t' => if is_space c then skip_spaces t' else t
  | [] => []
  end.

(** [\s+]: the longest run of white space, of one character at least.  What
    follows it in the pattern is a letter or the dollar sign, so no shorter
    run can match where the longest does not. *)
Definition spaces (t : text) : option text :=
  match t with
  | c :: t' => if is_space c then Some (skip_spaces t') else None
  | [] => None
  end.

Section Prices.

Variable float_repr : float -> string.
Variable str_repr : string -> string.

(** [\d]: the value of a decimal digit, [None] for any other code point. *)
Variable digit_value : N -> option Z.

(** [sys.get_int_max_str_digits()]: 0 for no limit. *)
Variable int_max_str_digits : Z.

(** [requests.get(url, headers=headers)] followed by [raise_for_status()]
    and [.text]. *)
Variable requests_get_text : string -> dict -> fetched text.

Definition in_class (c : N) : bool :=
  match digit_value c with
  | Some _ => true
  | None => (c =? comma)%N
  end.

(** [[\d,]+], greedy: the longest run of digits and commas and the rest. *)
Fixpoint take_class (t : text) : text * text :=
  match t with
  | c :: t' =>
      if in_class c then let '(g, rest) := take_class t' in (c :: g, rest)
      else ([], t)
  | [] => ([], [])
  end.

Definition bind_opt {A B : Type} (m : option A) (k : A -> option B) : option B :=
  match m with
  | Some a => k a
  | None => None
  end.

(** The pattern [SOLD\s+US\s+\$([\d,]+)] matched at the start of [t]: the
    group and the number of characters matched. *)
Definition match_here (t : text) : option (text * nat) :=
  bind_opt (literal word_SOLD t) (fun t1 =>
  bind_opt (spaces t1) (fun t2 =>
  bind_opt (literal word_US t2) (fun t3 =>
  bind_opt (spaces t3) (fun t4 =>
  bind_opt (literal [dollar] t4) (fun t5 =>
  let '(group, rest) := take_class t5 in
  match group with
  | [] => None
  | _ :: _ => Some (group, (List.length t - List.length rest)%nat)
  end))))).

(** [re.findall]: the groups of the matches found from left to right, the
    search resuming where a match ends.  [skip] counts the characters of
    the last match still to pass. *)
Fixpoint findall_from (skip : nat) (t : text) : list text :=
  match t with
  | [] => []
  | _ :: t' =>
      match skip with
      | S n => findall_from n t'
      | O =>
          match match_here t with
          | Some (group, len) => group :: findall_from (len - 1) t'
          | None => findall_from O t'
          end
      end
  end.

Definition findall (t : text) : list text := findall_from O t.

(** [m.replace(',', '')]. *)
Definition drop_commas (m : text) : text :=
  filter (fun c => negb (c =? comma)%N) m.

Fixpoint digits_value (t : text) (acc : Z) : option Z :=
  match t with
  | [] => Some acc
  | c :: t' =>
      match digit_value c with
      | Some d => digits_value t' (10 * acc + d)
      | None => None
      end
  end.

(** [int(s)] for a string of decimal digits, which is what a group is once
    its commas are dropped: [ValueError] for the empty string and for more
    digits than the limit allows. *)
Definition int_of_digits (s : text) : attempt Z :=
  match s with
  | [] => Caught InvalidInt
  | _ :: _ =>
      if (0 <? int_max_str_digits) &&
         (int_max_str_digits <? Z.of_nat (List.length s))
      then Caught InvalidInt
      else match digits_value s 0 with
           | Some n => Done n
           | None => Caught InvalidInt
           end
  end.

(** The price of a match: the number its digits spell, commas apart. *)
Definition price_of (m : text) (price : Z) : Prop :=
  drop_commas m <> [] /\ digits_value (drop_commas m) 0 = Some price.

(** The URL of the page of used cards of an item. *)
Definition used_url (item_id : json) : string :=
  (base_url ++ "/trading-cards/" ++ py_str float_repr str_repr item_id
   ++ "/used")%string.

(** The loop [for m in matches: prices.append(int(m.replace(',', '')))]. *)
Fixpoint collect_prices (matches : list text) (prices : list Z)
  : attempt (list Z) :=
  match matches with
  | [] => Done prices
  | m :: rest =>
      price <~ int_of_digits (drop_commas m) ;;
      collect_prices rest (prices ++ [price])
  end.

(** [get_recent_prices]: the list returned and the exception printed, if
    any. *)
Definition get_recent_prices (item_id : json) : list Z * option error :=
  match requests_get_text (used_url item_id) headers with
  | Failed message => ([], Some (HttpError message))
  | Fetched html_content =>
      match collect_prices (findall html_content) [] with
      | Done prices => (prices, None)
      | Caught e => ([], Some e)
      end
  end.

End Prices.

(** The ASCII digits, the least table of decimal digits there is. *)
Definition ascii_digit (c : N) : option Z :=
  if ((48 <=? c) && (c <=? 57))%N then Some (Z.of_N c - 48) else None.

(** The code points of an ASCII string. *)
Fixpoint text_of (s : string) : text :=
  match s with
  | EmptyString => []
  | String c s' => N_of_ascii c :: text_of s'
  end.

End Scraper.

(* ===================================================================== *)
(** ** More values used in the examples *)
(* ===================================================================== *)

Module Cases.

(** [{"result": {"listings": [{"seller": "a", "detail": {"askPrice": 0.1}}]}}] *)
Definition deep_listing : json :=
  JDict [("result",
          JDict [("listings",
                  JList [JDict [("seller", JStr "a");
                                ("detail",
                                 JDict [("askPrice", JFloat Sample.f_tenth)])]])])].

(** [{"total": 2, "data": {"items": [{"id": 2}]}}] *)
Definition two_levels : json :=
  JDict [("total", JInt 2);
         ("data", JDict [("items", JList [JDict [("id", JInt 2)]])])].

(** An answer of the search with two listings, one of them not a mapping. *)
Definition mixed_streetwears : json :=
  JDict [("streetwears", JList [JDict [("id", JInt 1)]; JInt 2])].

(** An answer of the search with two listings. *)
Definition two_streetwears : json :=
  JDict [("streetwears",
          JList [JDict [("id", JInt 7); ("name", JStr "Pikachu");
                        ("minPrice", JInt 500)];
                 JDict [("name", JStr "Eevee")]])].

(** A transport that answers every request with [body]. *)
Definition always (body : json) : string -> dict -> dict -> fetched json :=
  fun _ _ _ => Fetched body.

(** A transport for [get_json] where only the second endpoint answers. *)
Definition second_only : string -> dict -> option dict -> Z -> fetched json :=
  fun url _ _ _ =>
    if String.eqb url "https://snkrdunk.com/en/v1/search"
    then Fetched (JDict [("items", JList [JDict [("id", JInt 1)]])])
    else Failed "503 Server Error".

(** A transport for [get_json] where no endpoint answers. *)
Definition never : string -> dict -> option dict -> Z -> fetched json :=
  fun _ _ _ _ => Failed "timed out".

(** A page with two sales. *)
Definition two_sales : Scraper.text :=
  Scraper.text_of "<li>SOLD US $1,234</li><li>SOLD  US $71</li>".

(** A page whose second sale has no digit. *)
Definition broken_sale : Scraper.text :=
  Scraper.text_of "SOLD US $71 SOLD US $,".

Definition page (html : Scraper.text) : string -> dict -> fetched Scraper.text :=
  fun _ _ => Fetched html.

End Cases.

(* ===================================================================== *)
(** ** Shape Extractor *)
(* ===================================================================== *)

Lemma probe_dict_cons (key : string) (rest : list string) (d : dict) :
  probe (key :: rest) (JDict d) =
  match lookup key d with
  | Some (JList l) => Ok (Some l)
  | _ => probe rest (JDict d)
  end.
Proof.
  cbn [probe py_in py_getitem bind]. unfold has_key.
  destruct (lookup key d) as [v|]; [destruct v|]; reflexivity.
Qed.

Lemma probe_skips (before rest : list string) (d : dict) :
  (forall k, In k before -> ~ binds_list d k) ->
  probe (before ++ rest) (JDict d) = probe rest (JDict d).
Proof.
  induction before as [|k before IH]; intros Hnone; [reflexivity|].
  rewrite <- app_comm_cons, probe_dict_cons.
  assert (Hk : ~ binds_list d k) by (apply Hnone; left; reflexivity).
  rewrite <- IH by (intros k' Hin; apply Hnone; right; exact Hin).
  destruct (lookup k d) as [[]|] eqn:E; try reflexivity.
  exfalso. apply Hk. eexists. exact E.
Qed.

Lemma probe_first_list (keys : list string) (d : dict) (l : list json) :
  first_list keys d l -> probe keys (JDict d) = Ok (Some l).
Proof.
  intros (before & key & after & -> & Hnone & Hkey).
  rewrite probe_skips by exact Hnone.
  rewrite probe_dict_cons, Hkey. reflexivity.
Qed.

Lemma probe_no_list (keys : list string) (d : dict) :
  no_list keys d -> probe keys (JDict d) = Ok None.
Proof.
  intros Hnone.
  rewrite <- (app_nil_r keys). apply (probe_skips keys [] d Hnone).
Qed.

Lemma binds_list_dec (d : dict) (k : string) :
  {binds_list d k} + {~ binds_list d k}.
Proof.
  unfold binds_list.
  destruct (lookup k d) as [[]|] eqn:E;
    try (right; intros [l' H]; discriminate).
  left. eexists. reflexivity.
Qed.

(** Among keys of which one is bound to a sequence there is a first one. *)
Lemma first_list_exists (keys : list string) (d : dict) :
  (exists k, In k keys /\ binds_list d k) -> exists l, first_list keys d l.
Proof.
  induction keys as [|k0 keys IH]; intros (k & Hin & Hb).
  - destruct Hin.
  - destruct (binds_list_dec d k0) as [[l Hl]|Hno].
    + exists l, [], k0, keys. repeat split; [intros ? []|exact Hl].
    + destruct IH as (l & before & key & after & -> & Hnone & Hkey).
      { destruct Hin as [->|Hin]; [contradiction|]. exists k. split; assumption. }
      exists l, (k0 :: before), key, after. repeat split; [|exact Hkey].
      intros k' [<-|Hin']; [exact Hno|apply Hnone; exact Hin'].
Qed.

Lemma first_list_unique (keys : list string) (d : dict) (l1 l2 : list json) :
  first_list keys d l1 -> first_list keys d l2 -> l1 = l2.
Proof.
  intros H1 H2.
  apply probe_first_list in H1. apply probe_first_list in H2.
  congruence.
Qed.

Lemma first_list_not_no_list (keys : list string) (d : dict) (l : list json) :
  first_list keys d l -> ~ no_list keys d.
Proof.
  intros (before & key & after & -> & _ & Hkey) Hnone.
  apply (Hnone key); [apply in_elt|]. eexists. exact Hkey.
Qed.

(** C1.  A mapping that binds at least one of [items], [list], [data],
    [results], [cards], [products] to a sequence: the extractor returns
    exactly the sequence bound to the first such key in that order, whatever
    the lengths of the sequences. *)
Theorem C1_first_candidate_sequence_is_returned (d : dict) :
  (exists k, In k top_keys /\ binds_list d k) ->
  exists l, first_list top_keys d l /\
            extract_cards_from_response (JDict d) = Ok l.
Proof.
  intros Hsome.
  destruct (first_list_exists top_keys d Hsome) as [l Hl].
  exists l. split; [exact Hl|].
  unfold extract_cards_from_response.
  rewrite (probe_first_list _ _ _ Hl). reflexivity.
Qed.

(** [data] is bound to the empty sequence and [products] to three items:
    [data] is probed first and wins. *)
Lemma C1_first_candidate_sequence_is_returned_witness :
  let d := [("products", JList [JInt 1; JInt 2; JInt 3]); ("data", JList [])] in
  (exists k, In k top_keys /\ binds_list d k) /\
  (exists l, first_list top_keys d l /\
             extract_cards_from_response (JDict d) = Ok l).
Proof.
  intros d.
  assert (H : exists k, In k top_keys /\ binds_list d k).
  { exists "data". split; [cbn; tauto|]. exists []. reflexivity. }
  split; [exact H|].
  exact (C1_first_candidate_sequence_is_returned d H).
Defined.

(** What the extractor does once the top-level probe has found nothing. *)
Lemma extract_cards_after_top_probe (d : dict) :
  no_list top_keys d ->
  extract_cards_from_response (JDict d) =
  match lookup "data" d with
  | Some (JDict inner) =>
      found <- probe nested_keys (JDict inner) ;;
      match found with
      | Some l => Ok l
      | None => Ok []
      end
  | _ => Ok []
  end.
Proof.
  intros Hnone. unfold extract_cards_from_response.
  rewrite (probe_no_list _ _ Hnone).
  cbn [bind py_in py_getitem]. unfold has_key.
  destruct (lookup "data" d) as [[]|]; reflexivity.
Qed.

(** C2.  When the top-level probe finds no candidate key bound to a
    sequence: a mapping whose [data] is a mapping is probed one level deeper
    over [items], [list], [results], [cards], and the first sequence found
    there is returned; in every other case, a value that is not a mapping
    included, the result is the empty sequence. *)
Theorem C2_nested_probe_or_empty (v : json) :
  (forall d, v = JDict d -> no_list top_keys d) ->
  (forall d inner l,
      v = JDict d -> lookup "data" d = Some (JDict inner) ->
      first_list nested_keys inner l ->
      extract_cards_from_response v = Ok l) /\
  (forall d inner,
      v = JDict d -> lookup "data" d = Some (JDict inner) ->
      no_list nested_keys inner ->
      extract_cards_from_response v = Ok []) /\
  ((forall d inner, v = JDict d -> lookup "data" d <> Some (JDict inner)) ->
   extract_cards_from_response v = Ok []).
Proof.
  intros Htop. split; [|split].
  - intros d inner l -> Hdata Hfirst.
    rewrite (extract_cards_after_top_probe d (Htop d eq_refl)), Hdata.
    rewrite (probe_first_list _ _ _ Hfirst). reflexivity.
  - intros d inner -> Hdata Hnone.
    rewrite (extract_cards_after_top_probe d (Htop d eq_refl)), Hdata.
    rewrite (probe_no_list _ _ Hnone). reflexivity.
  - intros Hnodata. destruct v as [| | | | | |d]; try reflexivity.
    rewrite (extract_cards_after_top_probe d (Htop d eq_refl)).
    destruct (lookup "data" d) as [[| | | | | |inner]|] eqn:E; try reflexivity.
    exfalso. exact (Hnodata d inner eq_refl E).
Qed.

(** The nested probe at work: [data] is a mapping whose [products] and
    [data] are not probed, and whose [cards] is. *)
Lemma C2_nested_probe_or_empty_witness :
  let inner := [("products", JList [JInt 7]); ("cards", JList [JInt 1; JInt 2])] in
  let v := JDict [("total", JInt 2); ("data", JDict inner)] in
  (forall d, v = JDict d -> no_list top_keys d) /\
  extract_cards_from_response v = Ok [JInt 1; JInt 2].
Proof.
  intros inner v.
  assert (Htop : forall d, v = JDict d -> no_list top_keys d).
  { intros d [= <-] k Hin [l Hl]. cbn in Hin.
    repeat (destruct Hin as [<-|Hin]; [discriminate Hl|]). exact Hin. }
  split; [exact Htop|].
  eapply (proj1 (C2_nested_probe_or_empty v Htop)) with (inner := inner);
    [reflexivity|reflexivity|].
  exists ["items"; "list"; "results"], "cards", []. repeat split.
  intros k Hin [l Hl]. cbn in Hin.
  repeat (destruct Hin as [<-|Hin]; [discriminate Hl|]). exact Hin.
Defined.

(* ===================================================================== *)
(** ** Card ID Extractor *)
(* ===================================================================== *)

Section CardIdFacts.

Variable float_repr : float -> string.
Variable str_repr : string -> string.

Lemma first_field_dict_cons (field : string) (rest : list string) (d : dict) :
  first_field float_repr str_repr (field :: rest) (JDict d) =
  match lookup field d with
  | Some v => Ok (Some (py_str float_repr str_repr v))
  | None => first_field float_repr str_repr rest (JDict d)
  end.
Proof.
  cbn [first_field py_in py_getitem bind]. unfold has_key.
  destruct (lookup field d); reflexivity.
Qed.

Lemma first_field_skips (before rest : list string) (d : dict) :
  none_present before d ->
  first_field float_repr str_repr (before ++ rest) (JDict d) =
  first_field float_repr str_repr rest (JDict d).
Proof.
  induction before as [|k before IH]; intros Hnone; [reflexivity|].
  rewrite <- app_comm_cons, first_field_dict_cons.
  rewrite (Hnone k) by (left; reflexivity).
  apply IH. intros k' Hin. apply Hnone. right. exact Hin.
Qed.

Lemma first_field_first_present (fields : list string) (d : dict) (v : json) :
  first_present fields d v ->
  first_field float_repr str_repr fields (JDict d) = Ok (Some (py_str float_repr str_repr v)).
Proof.
  intros (before & field & after & -> & Hnone & Hfield).
  rewrite first_field_skips by exact Hnone.
  rewrite first_field_dict_cons, Hfield. reflexivity.
Qed.

Lemma first_field_none_present (fields : list string) (d : dict) :
  none_present fields d ->
  first_field float_repr str_repr fields (JDict d) = Ok None.
Proof.
  intros Hnone. rewrite <- (app_nil_r fields).
  apply (first_field_skips fields [] d Hnone).
Qed.

(** Either some field is the first present one, or none is present. *)
Lemma first_present_or_none (fields : list string) (d : dict) :
  (exists v, first_present fields d v) \/ none_present fields d.
Proof.
  induction fields as [|k fields IH].
  - right. intros ? [].
  - destruct (lookup k d) as [v|] eqn:E.
    + left. exists v, [], k, fields. repeat split; [intros ? []|exact E].
    + destruct IH as [(v & before & field & after & -> & Hnone & Hfield)|Hnone].
      * left. exists v, (k :: before), field, after. repeat split; [|exact Hfield].
        intros k' [<-|Hin]; [exact E|apply Hnone; exact Hin].
      * right. intros k' [<-|Hin]; [exact E|apply Hnone; exact Hin].
Qed.

(** C7.  On a mapping the fields [id], [cardId], [tradingCardId],
    [productId], [item_id] are probed in that order: the value of the first
    field present is returned as its string; the result is absent when none
    of the five is present; later fields play no part. *)
Theorem C7_first_present_id_field_as_string (d : dict) :
  (forall v, first_present id_fields d v ->
             extract_card_id float_repr str_repr (JDict d) = Ok (Some (py_str float_repr str_repr v))) /\
  (none_present id_fields d -> extract_card_id float_repr str_repr (JDict d) = Ok None).
Proof.
  split.
  - intros v Hv. apply first_field_first_present. exact Hv.
  - intros Hnone. apply first_field_none_present. exact Hnone.
Qed.

(** C10.  Presence of the key decides, not the value bound to it: when the
    first field present is bound to [None] the result is the string
    ["None"], and the result is absent exactly when none of the five keys
    is in the mapping. *)
Theorem C10_null_id_is_the_string_None (d : dict) :
  (first_present id_fields d JNull -> extract_card_id float_repr str_repr (JDict d) = Ok (Some "None")) /\
  (extract_card_id float_repr str_repr (JDict d) = Ok None <-> none_present id_fields d).
Proof.
  split.
  - intros Hnull. apply (first_field_first_present _ _ _ Hnull).
  - split.
    + intros Hnone.
      destruct (first_present_or_none id_fields d) as [[v Hv]|H]; [|exact H].
      apply first_field_first_present in Hv.
      unfold extract_card_id in Hnone. congruence.
    + apply first_field_none_present.
Qed.

End CardIdFacts.

(* ===================================================================== *)
(** ** Facts about binary64 rounding *)
(* ===================================================================== *)

Module FloatFacts.

Import PyFloat.

Lemma gt0_iff_positive (x : float) : gt0 x = true <-> positive_float x.
Proof.
  destruct x as [[]|[]| |[] m e]; cbn; intuition discriminate.
Qed.

Lemma shr_m_of_loc (m : Z) (l : location) :
  shr_m (shr_record_of_loc m l) = m.
Proof. destruct l as [|[]]; reflexivity. Qed.

Lemma shr_1_m (r : shr_record) :
  0 <= shr_m r -> shr_m (shr_1 r) = Z.shiftr (shr_m r) 1.
Proof.
  destruct r as [m b s]. cbn [shr_m]. intros Hm.
  rewrite <- Z.div2_spec.
  destruct m as [|[p|p|]|p]; try reflexivity. lia.
Qed.

Lemma iter_shr_1_m (k : positive) :
  forall r, 0 <= shr_m r ->
            shr_m (iter_pos shr_1 k r) = Z.shiftr (shr_m r) (Zpos k).
Proof.
  induction k as [k IH|k IH|]; intros r Hr; cbn [iter_pos].
  - assert (H1 : 0 <= shr_m (shr_1 r))
      by (rewrite shr_1_m by exact Hr; apply Z.shiftr_nonneg; exact Hr).
    assert (H2 : 0 <= shr_m (iter_pos shr_1 k (shr_1 r)))
      by (rewrite IH by exact H1; apply Z.shiftr_nonneg; exact H1).
    rewrite IH by exact H2. rewrite IH by exact H1. rewrite shr_1_m by exact Hr.
    rewrite !Z.shiftr_shiftr by lia. f_equal. lia.
  - assert (H2 : 0 <= shr_m (iter_pos shr_1 k r))
      by (rewrite IH by exact Hr; apply Z.shiftr_nonneg; exact Hr).
    rewrite IH by exact H2. rewrite IH by exact Hr.
    rewrite Z.shiftr_shiftr by lia. f_equal. lia.
  - apply shr_1_m. exact Hr.
Qed.

(** The number of binary digits of a positive number brackets it between
    two powers of two. *)
Lemma digits2_pos_bounds (p : positive) :
  2 ^ (Zpos (digits2_pos p) - 1) <= Zpos p < 2 ^ Zpos (digits2_pos p).
Proof.
  induction p as [p IH|p IH|]; cbn [digits2_pos].
  - rewrite Pos2Z.inj_succ.
    replace (Z.succ (Zpos (digits2_pos p)) - 1) with (Z.succ (Zpos (digits2_pos p) - 1)) by lia.
    rewrite !Z.pow_succ_r by lia. lia.
  - rewrite Pos2Z.inj_succ.
    replace (Z.succ (Zpos (digits2_pos p)) - 1) with (Z.succ (Zpos (digits2_pos p) - 1)) by lia.
    rewrite !Z.pow_succ_r by lia. lia.
  - cbn. lia.
Qed.

(** Shifting a positive mantissa to the exponent the format asks for:
    the mantissa stays positive as long as the exponent is not below the
    least one, and value and exponent are bracketed. *)
Lemma shr_fexp_bounds (m e : Z) (l : location) :
  0 < m -> -1074 <= e ->
  let r := fst (shr_fexp prec emax m e l) in
  let e' := snd (shr_fexp prec emax m e l) in
  0 < shr_m r /\
  e' = Z.max e (fexp prec emax (Zdigits2 m + e)) /\
  shr_m r < 2 ^ (Zdigits2 m + e - e').
Proof.
  intros Hm He. destruct m as [|p|p]; try lia.
  unfold shr_fexp, shr. cbn [Zdigits2].
  pose proof (digits2_pos_bounds p) as [Hlo Hhi].
  set (dg := Zpos (digits2_pos p)) in *.
  assert (Hn : fexp prec emax (dg + e) - e < dg).
  { unfold fexp, emin, prec, emax. subst dg. lia. }
  destruct (fexp prec emax (dg + e) - e) as [|k|k] eqn:En; cbn [fst snd];
    rewrite ?shr_m_of_loc.
  - repeat split; try lia. replace (dg + e - e) with dg by lia. exact Hhi.
  - rewrite iter_shr_1_m by (rewrite shr_m_of_loc; lia).
    rewrite shr_m_of_loc, Z.shiftr_div_pow2 by lia.
    assert (2 ^ Zpos k <= 2 ^ (dg - 1)) by (apply Z.pow_le_mono_r; lia).
    repeat split; [apply Z.div_str_pos; lia|lia|].
    apply Z.div_lt_upper_bound; [lia|].
    rewrite <- Z.pow_add_r by lia.
    replace (Z.pos k + (dg + e - (e + Z.pos k))) with dg by lia. exact Hhi.
  - repeat split; try lia. replace (dg + e - e) with dg by lia. exact Hhi.
Qed.

Lemma shr_fexp_positive (m e : Z) (l : location) :
  0 < m -> -1074 <= e ->
  0 < shr_m (fst (shr_fexp prec emax m e l)) /\
  e <= snd (shr_fexp prec emax m e l).
Proof.
  intros Hm He.
  destruct (shr_fexp_bounds m e l Hm He) as (H1 & H2 & _).
  split; [exact H1|]. rewrite H2. lia.
Qed.

Lemma round_nearest_even_le (m : Z) (l : location) :
  round_nearest_even m l <= m + 1.
Proof.
  destruct l as [|[]]; cbn; try lia.
  destruct (Z.even m); lia.
Qed.

(** A positive number of at most [2 ^ n] has at most [n + 1] digits. *)
Lemma Zdigits2_le (m n : Z) :
  0 < m -> 0 <= n -> m <= 2 ^ n -> Zdigits2 m <= n + 1.
Proof.
  intros Hm Hn Hle. destruct m as [|p|p]; try lia. cbn [Zdigits2].
  pose proof (digits2_pos_bounds p) as [Hlo _].
  destruct (Z_le_gt_dec (Zpos (digits2_pos p)) (n + 1)) as [|Hgt]; [assumption|].
  assert (2 ^ (n + 1) <= 2 ^ (Zpos (digits2_pos p) - 1))
    by (apply Z.pow_le_mono_r; lia).
  rewrite Z.pow_add_r in H by lia. lia.
Qed.

Lemma round_nearest_even_positive (m : Z) (l : location) :
  0 < m -> 0 < round_nearest_even m l.
Proof.
  intros Hm. destruct l as [|[]]; cbn; try lia.
  destruct (Z.even m); lia.
Qed.

(** Rounding a positive mantissa never produces a zero, a NaN or a
    negative number. *)
Lemma binary_round_aux_positive (m e : Z) (l : location) :
  0 < m -> -1074 <= e ->
  positive_float (binary_round_aux prec emax false m e l).
Proof.
  intros Hm He. unfold binary_round_aux.
  pose proof (shr_fexp_positive m e l Hm He) as [H1 H1e].
  destruct (shr_fexp prec emax m e l) as [r1 e1]. cbn [fst snd] in *.
  pose proof (round_nearest_even_positive _ (loc_of_shr_record r1) H1) as H2.
  pose proof (shr_fexp_positive _ e1 loc_Exact H2 ltac:(lia)) as [H3 _].
  destruct (shr_fexp prec emax _ e1 loc_Exact) as [r2 e2]. cbn [fst snd] in *.
  destruct (shr_m r2) as [|q|q]; try lia.
  destruct (e2 <=? emax - prec); exact I.
Qed.

Lemma shl_align_exponent (m : positive) (e e' : Z) :
  Z.min e e' <= snd (shl_align m e e').
Proof.
  unfold shl_align. destruct (e' - e) eqn:E; cbn [snd]; lia.
Qed.

Lemma round_int_positive (n : Z) : 0 < n -> positive_float (round_int n).
Proof.
  intros Hn. destruct n as [|p|p]; try lia.
  unfold round_int, binary_normalize, binary_round.
  pose proof (shl_align_exponent p 0 (fexp prec emax (Zpos (digits2_pos p) + 0))) as Hs.
  destruct (shl_align p 0 _) as [mz ez]. cbn [snd] in Hs.
  apply binary_round_aux_positive; [lia|].
  unfold fexp, emin, prec, emax in Hs. lia.
Qed.

(** Rounding stays finite when the value is below [2 ^ 1023]. *)
Lemma binary_round_aux_finite (m e : Z) (l : location) :
  0 < m -> -1074 <= e <= 971 -> Zdigits2 m + e <= 1023 ->
  is_infinity (binary_round_aux prec emax false m e l) = false.
Proof.
  intros Hm He Hd. unfold binary_round_aux.
  pose proof (shr_fexp_bounds m e l Hm ltac:(lia)) as (H1 & H1e & H1b).
  destruct (shr_fexp prec emax m e l) as [r1 e1]. cbn [fst snd] in *.
  pose proof (round_nearest_even_positive _ (loc_of_shr_record r1) H1) as H2.
  pose proof (round_nearest_even_le (shr_m r1) (loc_of_shr_record r1)) as H2b.
  set (m2 := round_nearest_even (shr_m r1) (loc_of_shr_record r1)) in *.
  assert (He1 : e <= e1 <= 971)
    by (rewrite H1e; unfold fexp, emin, prec, emax; lia).
  assert (Hdg : 0 <= Zdigits2 m + e - e1).
  { destruct (Z_le_gt_dec 0 (Zdigits2 m + e - e1)) as [|Hneg]; [assumption|].
    rewrite Z.pow_neg_r in H1b by lia. lia. }
  pose proof (Zdigits2_le m2 _ H2 Hdg ltac:(lia)) as Hd2.
  pose proof (shr_fexp_bounds m2 e1 loc_Exact H2 ltac:(lia)) as (H3 & H3e & _).
  destruct (shr_fexp prec emax m2 e1 loc_Exact) as [r2 e2]. cbn [fst snd] in *.
  assert (He2 : e2 <= emax - prec)
    by (rewrite H3e; unfold fexp, emin, prec, emax; lia).
  destruct (shr_m r2) as [|q|q]; try reflexivity.
  apply Z.leb_le in He2. rewrite He2. reflexivity.
Qed.

Lemma digits2_pos_iter_xO (s p : positive) :
  Zpos (digits2_pos (Pos.iter xO p s)) = Zpos (digits2_pos p) + Zpos s.
Proof.
  induction s as [|s IH] using Pos.peano_ind.
  - cbn. lia.
  - rewrite Pos.iter_succ. cbn [digits2_pos]. lia.
Qed.

Lemma round_int_finite (n : Z) :
  0 < n < 2 ^ 1023 -> is_infinity (round_int n) = false.
Proof.
  intros [Hn Hb]. destruct n as [|p|p]; try lia.
  unfold round_int, binary_normalize, binary_round.
  pose proof (digits2_pos_bounds p) as [Hlo _].
  assert (Hdg : Zpos (digits2_pos p) <= 1023).
  { destruct (Z_le_gt_dec (Zpos (digits2_pos p)) 1023) as [|Hgt]; [assumption|].
    assert (2 ^ 1023 <= 2 ^ (Zpos (digits2_pos p) - 1))
      by (apply Z.pow_le_mono_r; lia).
    lia. }
  unfold shl_align.
  destruct (fexp prec emax (Zpos (digits2_pos p) + 0) - 0) as [|k|k] eqn:E.
  - apply binary_round_aux_finite; cbn [Zdigits2]; lia.
  - apply binary_round_aux_finite; cbn [Zdigits2]; lia.
  - unfold fexp, emin, prec, emax in E |- *.
    apply binary_round_aux_finite; [lia|lia|].
    cbn [Zdigits2]. rewrite digits2_pos_iter_xO. lia.
Qed.

Lemma of_int_returns (n : Z) : 0 < n < 2 ^ 1023 -> returns (of_int n).
Proof.
  intros Hn. unfold of_int. rewrite (round_int_finite n Hn).
  eexists. reflexivity.
Qed.

(** [float(n)] of a positive [int], when it does not overflow, is above
    zero. *)
Lemma of_int_positive (n : Z) (f : float) :
  0 < n -> of_int n = Ok f -> gt0 f = true.
Proof.
  intros Hn. unfold of_int.
  pose proof (round_int_positive n Hn) as Hp.
  destruct (is_infinity (round_int n)); [discriminate|].
  intros [= <-]. apply gt0_iff_positive. exact Hp.
Qed.

Lemma leb_key_le (x y : float) :
  positive_float x -> positive_float y -> (leb x y = true <-> key_le x y).
Proof.
  destruct x as [[]|[]| |[] m1 e1]; destruct y as [[]|[]| |[] m2 e2];
    cbn; try tauto; intros _ _; try (intuition discriminate).
  unfold leb, SFleb, SFcompare.
  change (Pos.compare_cont Eq m1 m2) with (m1 ?= m2)%positive.
  destruct (Z.compare_spec e1 e2) as [He|He|He];
    [destruct (Pos.compare_spec m1 m2) as [Hm|Hm|Hm]| |];
    split; intros H; try reflexivity; try discriminate; try lia.
Qed.

Lemma ltb_false_key_le (x y : float) :
  positive_float x -> positive_float y -> (ltb x y = false <-> key_le y x).
Proof.
  destruct x as [[]|[]| |[] m1 e1]; destruct y as [[]|[]| |[] m2 e2];
    cbn; try tauto; intros _ _; try (intuition discriminate).
  unfold ltb, SFltb, SFcompare.
  change (Pos.compare_cont Eq m1 m2) with (m1 ?= m2)%positive.
  destruct (Z.compare_spec e1 e2) as [He|He|He];
    [destruct (Pos.compare_spec m1 m2) as [Hm|Hm|Hm]| |];
    split; intros H; try reflexivity; try discriminate; try lia.
Qed.

Lemma key_le_refl (x : float) : positive_float x -> key_le x x.
Proof. destruct x as [[]|[]| |[] m e]; cbn; try tauto. intros _. lia. Qed.

Lemma key_le_trans (x y z : float) : key_le x y -> key_le y z -> key_le x z.
Proof.
  destruct x as [[]|[]| |[] m1 e1]; destruct y as [[]|[]| |[] m2 e2];
    destruct z as [[]|[]| |[] m3 e3]; cbn; try tauto; lia.
Qed.

Lemma key_le_total (x y : float) :
  positive_float x -> positive_float y -> key_le x y \/ key_le y x.
Proof.
  destruct x as [[]|[]| |[] m1 e1]; destruct y as [[]|[]| |[] m2 e2];
    cbn; try tauto; intros _ _; lia.
Qed.

Lemma leb_refl (x : float) : gt0 x = true -> leb x x = true.
Proof.
  intros Hx. apply gt0_iff_positive in Hx.
  apply leb_key_le; [exact Hx|exact Hx|]. apply key_le_refl. exact Hx.
Qed.

Lemma leb_trans (x y z : float) :
  gt0 x = true -> gt0 y = true -> gt0 z = true ->
  leb x y = true -> leb y z = true -> leb x z = true.
Proof.
  intros Hx Hy Hz Hxy Hyz. apply gt0_iff_positive in Hx, Hy, Hz.
  apply leb_key_le in Hxy; [|assumption..].
  apply leb_key_le in Hyz; [|assumption..].
  apply leb_key_le; [assumption..|]. exact (key_le_trans x y z Hxy Hyz).
Qed.

(** [not (x < y)] is [y <= x] among the floats above zero (no NaN). *)
Lemma ltb_false_leb (x y : float) :
  gt0 x = true -> gt0 y = true -> ltb x y = false -> leb y x = true.
Proof.
  intros Hx Hy H. apply gt0_iff_positive in Hx, Hy.
  apply leb_key_le; [assumption..|]. apply ltb_false_key_le; assumption.
Qed.

Lemma ltb_true_leb (x y : float) :
  gt0 x = true -> gt0 y = true -> ltb x y = true -> leb x y = true.
Proof.
  intros Hx Hy H. apply gt0_iff_positive in Hx, Hy.
  apply leb_key_le; [assumption..|].
  destruct (key_le_total x y Hx Hy) as [Hle|Hle]; [exact Hle|].
  apply ltb_false_key_le in Hle; [|assumption..]. congruence.
Qed.

End FloatFacts.

(* ===================================================================== *)
(** ** Loops *)
(* ===================================================================== *)

Section ForEachFacts.
Context {A S : Type}.
Variable body : A -> S -> result S.

Lemma for_each_app (l1 l2 : list A) (s : S) :
  for_each body (l1 ++ l2) s = (s' <- for_each body l1 s ;; for_each body l2 s').
Proof.
  revert s. induction l1 as [|x l1 IH]; intros s; [reflexivity|].
  cbn [for_each app bind]. destruct (body x s); [apply IH|reflexivity].
Qed.

(** A relation between the state before and after, kept by every
    iteration, is kept by the loop. *)
Lemma for_each_preserves (R : S -> S -> Prop) (items : list A) :
  (forall s, R s s) ->
  (forall s1 s2 s3, R s1 s2 -> R s2 s3 -> R s1 s3) ->
  Forall (fun x => forall s s', body x s = Ok s' -> R s s') items ->
  forall s s', for_each body items s = Ok s' -> R s s'.
Proof.
  intros Hrefl Htrans Hall.
  induction Hall as [|x items Hx _ IH]; intros s s' Hrun; cbn in Hrun.
  - injection Hrun as <-. apply Hrefl.
  - destruct (body x s) as [s1|] eqn:E; [|discriminate].
    exact (Htrans _ _ _ (Hx _ _ E) (IH _ _ Hrun)).
Qed.

(** An invariant of the state kept by every iteration. *)
Lemma for_each_invariant (I : S -> Prop) (items : list A) :
  Forall (fun x => forall s s', I s -> body x s = Ok s' -> I s') items ->
  forall s s', I s -> for_each body items s = Ok s' -> I s'.
Proof.
  intros Hall.
  induction Hall as [|x items Hx _ IH]; intros s s' Hs Hrun; cbn in Hrun.
  - injection Hrun as <-. exact Hs.
  - destruct (body x s) as [s1|] eqn:E; [|discriminate].
    exact (IH _ _ (Hx _ _ Hs E) Hrun).
Qed.

(** A loop whose iterations all return, returns. *)
Lemma for_each_returns (items : list A) :
  Forall (fun x => forall s, returns (body x s)) items ->
  forall s, returns (for_each body items s).
Proof.
  intros Hall.
  induction Hall as [|x items Hx _ IH]; intros s; cbn.
  - eexists. reflexivity.
  - destruct (Hx s) as [s1 ->]. apply IH.
Qed.
(** An iteration that leaves the state alone can be left out. *)
Lemma for_each_skip (x : A) (l1 l2 : list A) (s : S) :
  (forall s0, body x s0 = Ok s0) ->
  for_each body (l1 ++ x :: l2) s = for_each body (l1 ++ l2) s.
Proof.
  intros Hx. rewrite !for_each_app.
  destruct (for_each body l1 s) as [s1|]; [|reflexivity].
  cbn [bind for_each]. rewrite Hx. reflexivity.
Qed.

End ForEachFacts.

Lemma extends_refl {A : Type} (l : list A) : extends l l.
Proof. exists []. symmetry. apply app_nil_r. Qed.

Lemma extends_trans {A : Type} (l1 l2 l3 : list A) :
  extends l1 l2 -> extends l2 l3 -> extends l1 l3.
Proof.
  intros [a ->] [b ->]. exists (a ++ b). symmetry. apply app_assoc.
Qed.

Lemma extends_In {A : Type} (l l' : list A) (x : A) :
  extends l l' -> In x l -> In x l'.
Proof. intros [a ->] Hin. apply in_or_app. left. exact Hin. Qed.

(* ===================================================================== *)
(** ** Price Walker: what one item records *)
(* ===================================================================== *)

Lemma all_positive_snoc (l : list float) (x : float) :
  all_positive l -> PyFloat.gt0 x = true -> all_positive (l ++ [x]).
Proof.
  intros Hl Hx. apply Forall_app. split; [exact Hl|].
  constructor; [exact Hx|constructor].
Qed.

(** The outcomes of [record_int]. *)
Lemma record_int_cases (n : Z) (acc acc' : list float) :
  record_int n acc = Ok acc' ->
  acc' = acc \/ exists f, PyFloat.gt0 f = true /\ acc' = acc ++ [f].
Proof.
  unfold record_int. destruct (0 <? n) eqn:En.
  - apply Z.ltb_lt in En.
    destruct (PyFloat.of_int n) as [f|] eqn:Ef; cbn; [|discriminate].
    intros [= <-]. right. exists f. split; [|reflexivity].
    exact (FloatFacts.of_int_positive n f En Ef).
  - intros [= <-]. left. reflexivity.
Qed.

(** One item either leaves the list as it is or appends one float that is
    above zero. *)
Lemma record_price_cases (kv : string * json) (acc acc' : list float) :
  record_price kv acc = Ok acc' ->
  acc' = acc \/ exists f, PyFloat.gt0 f = true /\ acc' = acc ++ [f].
Proof.
  destruct kv as [key value]. unfold record_price.
  destruct (is_price_key key); [|intros [= <-]; left; reflexivity].
  destruct value as [|b|n|x|s|l|d]; try (intros [= <-]; left; reflexivity).
  - apply record_int_cases.
  - apply record_int_cases.
  - destruct (PyFloat.gt0 x) eqn:Ex; intros [= <-]; [right|left; reflexivity].
    exists x. split; [exact Ex|reflexivity].
  - destruct (FloatOfStr.of_str (strip_currency s)) as [price_val|];
      [|intros [= <-]; left; reflexivity].
    destruct (PyFloat.gt0 price_val) eqn:Ex; intros [= <-]; [right|left; reflexivity].
    exists price_val. split; [exact Ex|reflexivity].
Qed.

Lemma record_price_positive (kv : string * json) (acc acc' : list float) :
  all_positive acc -> record_price kv acc = Ok acc' -> all_positive acc'.
Proof.
  intros Hacc Hrun.
  destruct (record_price_cases kv acc acc' Hrun) as [->|(f & Hf & ->)];
    [exact Hacc|apply all_positive_snoc; assumption].
Qed.

Lemma record_price_extends (kv : string * json) (acc acc' : list float) :
  record_price kv acc = Ok acc' -> extends acc acc'.
Proof.
  intros Hrun.
  destruct (record_price_cases kv acc acc' Hrun) as [->|(f & _ & ->)];
    [apply extends_refl|exists [f]; reflexivity].
Qed.

(* ===================================================================== *)
(** ** Price Walker: the walk *)
(* ===================================================================== *)

Lemma walk_dict (d : dict) (acc : list float) :
  walk (JDict d) acc =
  (recorded <- for_each record_price d acc ;;
   for_each (fun kv => walk (snd kv)) d recorded).
Proof. reflexivity. Qed.

(** The walk keeps every recorded price above zero. *)
Lemma walk_positive (obj : json) :
  forall acc acc', all_positive acc -> walk obj acc = Ok acc' -> all_positive acc'.
Proof.
  induction obj as [| | | | |l IH|d IH] using json_induction;
    intros acc acc' Hacc Hrun;
    try (cbn in Hrun; injection Hrun as <-; exact Hacc).
  - cbn [walk] in Hrun.
    exact (for_each_invariant walk all_positive l IH acc acc' Hacc Hrun).
  - rewrite walk_dict in Hrun.
    destruct (for_each record_price d acc) as [recorded|] eqn:E; [|discriminate].
    cbn [bind] in Hrun.
    assert (Hrec : all_positive recorded).
    { apply (for_each_invariant record_price all_positive d) with (s := acc);
        [|exact Hacc|exact E].
      apply Forall_forall. intros kv _ s s'. apply record_price_positive. }
    exact (for_each_invariant _ all_positive d IH recorded acc' Hrec Hrun).
Qed.

(** The walk only appends. *)
Lemma walk_extends (obj : json) :
  forall acc acc', walk obj acc = Ok acc' -> extends acc acc'.
Proof.
  induction obj as [| | | | |l IH|d IH] using json_induction;
    intros acc acc' Hrun;
    try (cbn in Hrun; injection Hrun as <-; apply extends_refl).
  - cbn [walk] in Hrun.
    exact (for_each_preserves walk extends l extends_refl extends_trans IH acc acc' Hrun).
  - rewrite walk_dict in Hrun.
    destruct (for_each record_price d acc) as [recorded|] eqn:E; [|discriminate].
    cbn [bind] in Hrun.
    apply extends_trans with recorded.
    + apply (for_each_preserves record_price extends d extends_refl extends_trans);
        [|exact E].
      apply Forall_forall. intros kv _ s s'. apply record_price_extends.
    + exact (for_each_preserves _ extends d extends_refl extends_trans IH _ _ Hrun).
Qed.

(** C3.  Every element of the [all_prices] that [extract_price_info]
    returns is strictly above zero: under a matching key a number is
    recorded only when it is above zero, and so is a string after
    coercion. *)
Theorem C3_recorded_prices_are_positive (data : json) (info : price_info) :
  extract_price_info data = Ok info ->
  Forall (fun x => PyFloat.gt0 x = true) (all_prices info).
Proof.
  unfold extract_price_info. intros Hrun.
  destruct (walk data []) as [prices|] eqn:Ew; [|discriminate].
  pose proof (walk_positive data [] prices (Forall_nil _) Ew) as Hpos.
  cbn [bind] in Hrun. destruct prices as [|x rest].
  - injection Hrun as <-. exact Hpos.
  - destruct (py_min (x :: rest)); [|discriminate].
    destruct (py_max (x :: rest)); [|discriminate].
    destruct (truediv _ _); [|discriminate].
    injection Hrun as <-. exact Hpos.
Qed.

(* ===================================================================== *)
(** ** The summary *)
(* ===================================================================== *)

Lemma py_min_fold (x : float) (rest : list float) :
  py_min (x :: rest) = Ok (fold_left keep_less rest x).
Proof. reflexivity. Qed.

Lemma py_max_fold (x : float) (rest : list float) :
  py_max (x :: rest) = Ok (fold_left keep_greater rest x).
Proof. reflexivity. Qed.

Lemma fold_keep_less_is_min (rest : list float) :
  forall x, all_positive (x :: rest) -> is_min (fold_left keep_less rest x) (x :: rest).
Proof.
  induction rest as [|a rest IH]; intros x Hpos.
  - inversion Hpos as [|? ? Hx _]; subst. split; [left; reflexivity|].
    intros y [<-|[]]. apply FloatFacts.leb_refl. exact Hx.
  - inversion Hpos as [|? ? Hx Hrest]; subst.
    inversion Hrest as [|? ? Ha Hrest']; subst.
    cbn [fold_left].
    assert (Hk : PyFloat.gt0 (keep_less x a) = true)
      by (unfold keep_less; destruct (PyFloat.ltb a x); assumption).
    assert (Hkx : PyFloat.leb (keep_less x a) x = true).
    { unfold keep_less. destruct (PyFloat.ltb a x) eqn:E.
      - apply FloatFacts.ltb_true_leb; assumption.
      - apply FloatFacts.leb_refl; assumption. }
    assert (Hka : PyFloat.leb (keep_less x a) a = true).
    { unfold keep_less. destruct (PyFloat.ltb a x) eqn:E.
      - apply FloatFacts.leb_refl; assumption.
      - apply FloatFacts.ltb_false_leb; assumption. }
    destruct (IH (keep_less x a)) as [Hin Hle]; [constructor; assumption|].
    assert (Hr : PyFloat.gt0 (fold_left keep_less rest (keep_less x a)) = true).
    { assert (Hall : all_positive (keep_less x a :: rest)) by (constructor; assumption).
      unfold all_positive in Hall. rewrite Forall_forall in Hall. apply Hall. exact Hin. }
    pose proof (Hle _ (or_introl eq_refl)) as Hrk.
    split.
    + destruct Hin as [Hin|Hin]; [|right; right; exact Hin].
      rewrite <- Hin. unfold keep_less.
      destruct (PyFloat.ltb a x); [right; left|left]; reflexivity.
    + intros y [<-|[<-|Hy]].
      * exact (FloatFacts.leb_trans _ _ _ Hr Hk Hx Hrk Hkx).
      * exact (FloatFacts.leb_trans _ _ _ Hr Hk Ha Hrk Hka).
      * apply Hle. right. exact Hy.
Qed.

Lemma fold_keep_greater_is_max (rest : list float) :
  forall x, all_positive (x :: rest) ->
            is_max (fold_left keep_greater rest x) (x :: rest).
Proof.
  induction rest as [|a rest IH]; intros x Hpos.
  - inversion Hpos as [|? ? Hx _]; subst. split; [left; reflexivity|].
    intros y [<-|[]]. apply FloatFacts.leb_refl. exact Hx.
  - inversion Hpos as [|? ? Hx Hrest]; subst.
    inversion Hrest as [|? ? Ha Hrest']; subst.
    cbn [fold_left].
    assert (Hk : PyFloat.gt0 (keep_greater x a) = true)
      by (unfold keep_greater; destruct (PyFloat.ltb x a); assumption).
    assert (Hkx : PyFloat.leb x (keep_greater x a) = true).
    { unfold keep_greater. destruct (PyFloat.ltb x a) eqn:E.
      - apply FloatFacts.ltb_true_leb; assumption.
      - apply FloatFacts.leb_refl; assumption. }
    assert (Hka : PyFloat.leb a (keep_greater x a) = true).
    { unfold keep_greater. destruct (PyFloat.ltb x a) eqn:E.
      - apply FloatFacts.leb_refl; assumption.
      - apply FloatFacts.ltb_false_leb; assumption. }
    destruct (IH (keep_greater x a)) as [Hin Hle]; [constructor; assumption|].
    assert (Hr : PyFloat.gt0 (fold_left keep_greater rest (keep_greater x a)) = true).
    { assert (Hall : all_positive (keep_greater x a :: rest)) by (constructor; assumption).
      unfold all_positive in Hall. rewrite Forall_forall in Hall. apply Hall. exact Hin. }
    pose proof (Hle _ (or_introl eq_refl)) as Hrk.
    split.
    + destruct Hin as [Hin|Hin]; [|right; right; exact Hin].
      rewrite <- Hin. unfold keep_greater.
      destruct (PyFloat.ltb x a); [right; left|left]; reflexivity.
    + intros y [<-|[<-|Hy]].
      * exact (FloatFacts.leb_trans _ _ _ Hx Hk Hr Hkx Hrk).
      * exact (FloatFacts.leb_trans _ _ _ Ha Hk Hr Hka Hrk).
      * apply Hle. right. exact Hy.
Qed.

(** The summary computed from the list the walk has recorded. *)
Lemma extract_price_info_summary (data : json) (info : price_info) :
  extract_price_info data = Ok info ->
  walk data [] = Ok (all_prices info) /\
  match all_prices info with
  | [] =>
      lowest_price info = None /\ highest_price info = None /\
      average_price info = None
  | x :: rest =>
      lowest_price info = Some (fold_left keep_less rest x) /\
      highest_price info = Some (fold_left keep_greater rest x) /\
      average_price info = Some (float_mean (x :: rest))
  end.
Proof.
  unfold extract_price_info. intros Hrun.
  destruct (walk data []) as [prices|]; [|discriminate].
  cbn [bind] in Hrun. destruct prices as [|x rest].
  - injection Hrun as <-. cbn. auto.
  - rewrite py_min_fold, py_max_fold in Hrun. cbn [bind] in Hrun.
    unfold truediv in Hrun.
    destruct (Z.of_nat (Datatypes.length (x :: rest)) =? 0); [discriminate|].
    unfold PyFloat.of_int in Hrun.
    destruct (PyFloat.is_infinity _); [discriminate|].
    cbn [bind] in Hrun. injection Hrun as <-. cbn. auto.
Qed.

(** *** Division by one, and the sum of one price *)

Lemma div_eucl_pair (a b : Z) : Z.div_eucl a b = (a / b, a mod b).
Proof. unfold Z.div, Z.modulo. destruct (Z.div_eucl a b). reflexivity. Qed.

(** Rounding leaves a mantissa that is canonical as it is. *)
Lemma binary_round_aux_exact (m : positive) (e : Z) :
  bounded PyFloat.prec PyFloat.emax m e = true ->
  binary_round_aux PyFloat.prec PyFloat.emax false (Zpos m) e loc_Exact =
  S754_finite false m e.
Proof.
  intros Hb. unfold bounded, canonical_mantissa in Hb.
  apply andb_true_iff in Hb. destruct Hb as [Hc He].
  apply Z.eqb_eq in Hc.
  unfold binary_round_aux, shr_fexp. cbn [Zdigits2].
  rewrite Hc, Z.sub_diag.
  cbn [shr shr_record_of_loc shr_m loc_of_shr_record round_nearest_even].
  cbn [Zdigits2]. rewrite Hc, Z.sub_diag. cbn [shr shr_record_of_loc shr_m].
  rewrite He. reflexivity.
Qed.

(** Rounding undoes a doubling of the mantissa at the exponent below. *)
Lemma binary_round_aux_double (m : positive) (e : Z) :
  bounded PyFloat.prec PyFloat.emax m e = true ->
  binary_round_aux PyFloat.prec PyFloat.emax false (2 * Zpos m) (e - 1) loc_Exact =
  S754_finite false m e.
Proof.
  intros Hb. unfold bounded, canonical_mantissa in Hb.
  apply andb_true_iff in Hb. destruct Hb as [Hc He].
  apply Z.eqb_eq in Hc.
  unfold binary_round_aux, shr_fexp.
  replace (Zdigits2 (2 * Zpos m)) with (Zpos (digits2_pos m) + 1) by (cbn; lia).
  replace (Zpos (digits2_pos m) + 1 + (e - 1)) with (Zpos (digits2_pos m) + e) by lia.
  rewrite Hc. replace (e - (e - 1)) with 1 by lia.
  cbn [shr shr_record_of_loc iter_pos shr_1 Z.mul Pos.mul shr_m loc_of_shr_record
       round_nearest_even orb].
  replace (e - 1 + 1) with e by lia.
  cbn [Zdigits2]. rewrite Hc, Z.sub_diag. cbn [shr shr_record_of_loc shr_m].
  rewrite He. reflexivity.
Qed.

(** [x / 1.0] is [x]: the quotient is exact and rounding leaves it. *)
Lemma div_one (x : float) :
  PyFloat.gt0 x = true -> valid_float x = true -> PyFloat.div x Sample.f_1 = x.
Proof.
  intros Hp. apply FloatFacts.gt0_iff_positive in Hp. revert Hp.
  unfold valid_float.
  destruct x as [[]|[]| |[] m e]; cbn [PyFloat.positive_float]; intros Hp Hv;
    try contradiction; try reflexivity.
  cbn [valid_binary] in Hv. pose proof Hv as Hb.
  unfold bounded, canonical_mantissa in Hb.
  apply andb_true_iff in Hb. destruct Hb as [Hc He].
  apply Z.eqb_eq in Hc. apply Z.leb_le in He.
  unfold PyFloat.div, Sample.f_1, SFdiv, SFdiv_core_binary. cbn [xorb Zdigits2].
  change (Zpos (digits2_pos 4503599627370496)) with 53.
  set (dg := Zpos (digits2_pos m)) in *.
  assert (Hdg : 0 < dg) by (unfold dg; lia).
  replace (dg + e - (53 + -52)) with (dg + e - 1) by lia.
  replace (e - -52) with (e + 52) by lia.
  assert (Hf : fexp PyFloat.prec PyFloat.emax (dg + e - 1) = e \/
               fexp PyFloat.prec PyFloat.emax (dg + e - 1) = e - 1).
  { unfold fexp, emin, PyFloat.prec, PyFloat.emax in *. lia. }
  destruct Hf as [Hf|Hf]; rewrite Hf.
  - rewrite Z.min_l by lia. replace (e + 52 - e) with 52 by lia.
    cbv beta iota zeta.
    rewrite Z.shiftl_mul_pow2 by lia. rewrite div_eucl_pair.
    rewrite Z.div_mul, Z.mod_mul by lia.
    cbn [new_location Z.even new_location_even Z.eqb].
    apply binary_round_aux_exact. exact Hv.
  - rewrite Z.min_l by lia. replace (e + 52 - (e - 1)) with 53 by lia.
    cbv beta iota zeta.
    rewrite Z.shiftl_mul_pow2 by lia. rewrite div_eucl_pair.
    replace (Zpos m * 2 ^ 53) with (2 * Zpos m * 4503599627370496) by lia.
    rewrite Z.div_mul, Z.mod_mul by lia.
    cbn [new_location Z.even new_location_even Z.eqb].
    apply binary_round_aux_double. exact Hv.
Qed.

(** The first step of the compensated sum on a finite price: the price,
    and a compensation of zero. *)
Lemma cs_add_first (m : positive) (e : Z) :
  PyFloat.cs_add (PyFloat.zero, PyFloat.zero) (S754_finite false m e) =
  (S754_finite false m e, PyFloat.zero).
Proof.
  cbn [PyFloat.cs_add PyFloat.add SFadd PyFloat.zero PyFloat.abs SFabs
       PyFloat.leb SFleb SFcompare].
  unfold PyFloat.sub, SFsub. rewrite Z.sub_diag. reflexivity.
Qed.

(** The sum of a single price is the price, under either summation. *)
Lemma py_sum_with_single (a : summation) (x : float) :
  PyFloat.gt0 x = true -> py_sum_with a [x] = x.
Proof.
  intros Hp. apply FloatFacts.gt0_iff_positive in Hp. revert Hp.
  destruct x as [[]|[]| |[] m e]; cbn [PyFloat.positive_float]; intros Hp;
    try contradiction; destruct a; try reflexivity.
  unfold py_sum_with, PyFloat.sum_compensated. cbn [fold_left].
  rewrite cs_add_first. reflexivity.
Qed.

(** The summary under either summation, from the list the walk has
    recorded. *)
Lemma extract_price_info_with_summary
    (a : summation) (data : json) (info : price_info) :
  extract_price_info_with a data = Ok info ->
  walk data [] = Ok (all_prices info) /\
  match all_prices info with
  | [] =>
      lowest_price info = None /\ highest_price info = None /\
      average_price info = None
  | x :: rest =>
      lowest_price info = Some (fold_left keep_less rest x) /\
      highest_price info = Some (fold_left keep_greater rest x) /\
      average_price info = Some (float_mean_with a (x :: rest))
  end.
Proof.
  unfold extract_price_info_with. intros Hrun.
  destruct (walk data []) as [prices|]; [|discriminate].
  cbn [bind] in Hrun. destruct prices as [|x rest].
  - injection Hrun as <-. cbn. auto.
  - rewrite py_min_fold, py_max_fold in Hrun. cbn [bind] in Hrun.
    unfold truediv in Hrun.
    destruct (Z.of_nat (Datatypes.length (x :: rest)) =? 0); [discriminate|].
    unfold PyFloat.of_int in Hrun.
    destruct (PyFloat.is_infinity _); [discriminate|].
    cbn [bind] in Hrun. injection Hrun as <-. cbn. auto.
Qed.

(** The summation with which [extract_price_info] was written above. *)
Lemma extract_price_info_with_plain (data : json) :
  extract_price_info_with Plain data = extract_price_info data.
Proof. reflexivity. Qed.

(** The summation changes the average and nothing else: with either one
    the function raises the same exception or returns the same [lowest],
    [highest] and [all_prices] as [extract_price_info] above. *)
Lemma extract_price_info_with_agrees (a : summation) (data : json) :
  match extract_price_info_with a data, extract_price_info data with
  | Ok i, Ok j =>
      lowest_price i = lowest_price j /\ highest_price i = highest_price j /\
      all_prices i = all_prices j
  | Raise e, Raise e' => e = e'
  | _, _ => False
  end.
Proof.
  unfold extract_price_info_with, extract_price_info.
  destruct (walk data []) as [prices|]; cbn [bind]; [|reflexivity].
  destruct prices as [|x rest]; [cbn; auto|].
  rewrite py_min_fold, py_max_fold. cbn [bind]. unfold truediv.
  destruct (Z.of_nat (Datatypes.length (x :: rest)) =? 0); [reflexivity|].
  destruct (PyFloat.of_int _); cbn; auto.
Qed.

(** C5, as the code has it, on either interpreter.  When at least one
    price is recorded, [lowest] is a least and [highest] a greatest element
    of [all_prices], [lowest] is at most [highest], and [average] is the
    sum of the interpreter (accumulated from the left before CPython 3.12,
    compensated from 3.12 on) divided by the count, each step rounded; when
    exactly one price is recorded, the three are that price.  When no price
    is recorded the three are absent, [all_prices] is empty, and the
    function returns normally. *)
Theorem C5_summary_of_recorded_prices (a : summation) (data : json) :
  (forall info,
      extract_price_info_with a data = Ok info ->
      match all_prices info with
      | [] =>
          lowest_price info = None /\ highest_price info = None /\
          average_price info = None
      | x :: rest =>
          exists lo hi avg,
            lowest_price info = Some lo /\ highest_price info = Some hi /\
            average_price info = Some avg /\
            is_min lo (all_prices info) /\ is_max hi (all_prices info) /\
            PyFloat.leb lo hi = true /\
            avg = float_mean_with a (all_prices info) /\
            (rest = [] -> valid_float x = true -> lo = x /\ hi = x /\ avg = x)
      end) /\
  (walk data [] = Ok [] ->
   extract_price_info_with a data =
   Ok {| lowest_price := None; highest_price := None;
         average_price := None; all_prices := [] |}).
Proof.
  split.
  - intros info Hrun.
    destruct (extract_price_info_with_summary a data info Hrun) as [Hwalk Hsum].
    pose proof (walk_positive data [] (all_prices info) (Forall_nil _) Hwalk) as Hpos.
    destruct (all_prices info) as [|x rest]; [exact Hsum|].
    destruct Hsum as (Hlo & Hhi & Havg).
    pose proof (fold_keep_less_is_min rest x Hpos) as Hmin.
    pose proof (fold_keep_greater_is_max rest x Hpos) as Hmax.
    exists (fold_left keep_less rest x), (fold_left keep_greater rest x),
           (float_mean_with a (x :: rest)).
    split; [exact Hlo|]. split; [exact Hhi|]. split; [exact Havg|].
    split; [exact Hmin|]. split; [exact Hmax|].
    split; [apply Hmin; apply Hmax|]. split; [reflexivity|].
    intros -> Hvalid. cbn [fold_left]. split; [reflexivity|]. split; [reflexivity|].
    inversion Hpos as [|? ? Hx _]; subst.
    unfold float_mean_with. rewrite (py_sum_with_single a x Hx).
    change (PyFloat.round_int (Z.of_nat (Datatypes.length [x]))) with Sample.f_1.
    exact (div_one x Hx Hvalid).
  - intros Hwalk. unfold extract_price_info_with. rewrite Hwalk. reflexivity.
Qed.

Lemma C3_recorded_prices_are_positive_witness :
  let info := {| lowest_price := Some Sample.f_500;
                 highest_price := Some Sample.f_500;
                 average_price := Some Sample.f_500;
                 all_prices := [Sample.f_500] |} in
  extract_price_info Sample.mixed_signs = Ok info /\
  Forall (fun x => PyFloat.gt0 x = true) (all_prices info).
Proof.
  intros info.
  assert (H : extract_price_info Sample.mixed_signs = Ok info)
    by (vm_compute; reflexivity).
  split; [exact H|].
  exact (C3_recorded_prices_are_positive Sample.mixed_signs info H).
Defined.

(** The two listings of the example, on either interpreter; and a single
    listing, where the three statistics are its price. *)
Lemma C5_summary_of_recorded_prices_witness :
  let info := {| lowest_price := Some Sample.f_500;
                 highest_price := Some Sample.f_1000;
                 average_price := Some Sample.f_750;
                 all_prices := [Sample.f_1000; Sample.f_500] |} in
  let single := {| lowest_price := Some Sample.f_1234;
                   highest_price := Some Sample.f_1234;
                   average_price := Some Sample.f_1234;
                   all_prices := [Sample.f_1234] |} in
  (extract_price_info_with Plain Sample.streetwears = Ok info /\
   extract_price_info_with Compensated Sample.streetwears = Ok info /\
   extract_price_info_with Compensated Sample.one_listing = Ok single /\
   valid_float Sample.f_1234 = true) /\
  (is_min Sample.f_500 (all_prices info) /\
   is_max Sample.f_1000 (all_prices info) /\
   Sample.f_750 = float_mean_with Plain (all_prices info) /\
   Sample.f_750 = float_mean_with Compensated (all_prices info)) /\
  float_mean_with Compensated [Sample.f_1234] = Sample.f_1234.
Proof.
  intros info single.
  assert (H1 : extract_price_info_with Plain Sample.streetwears = Ok info)
    by (vm_compute; reflexivity).
  assert (H2 : extract_price_info_with Compensated Sample.streetwears = Ok info)
    by (vm_compute; reflexivity).
  assert (H3 : extract_price_info_with Compensated Sample.one_listing = Ok single)
    by (vm_compute; reflexivity).
  assert (H4 : valid_float Sample.f_1234 = true) by (vm_compute; reflexivity).
  split; [repeat split; assumption|]. split.
  - destruct (proj1 (C5_summary_of_recorded_prices Plain Sample.streetwears) info H1)
      as (lo & hi & avg & Hlo & Hhi & Havg & Hmin & Hmax & _ & Hmean & _).
    destruct (proj1 (C5_summary_of_recorded_prices Compensated Sample.streetwears) info H2)
      as (lo' & hi' & avg' & _ & _ & Havg' & _ & _ & _ & Hmean' & _).
    cbn [lowest_price highest_price average_price info] in Hlo, Hhi, Havg, Havg'.
    injection Hlo as <-. injection Hhi as <-. injection Havg as <-.
    injection Havg' as <-.
    repeat split; try apply Hmin; try apply Hmax; assumption.
  - destruct (proj1 (C5_summary_of_recorded_prices Compensated Sample.one_listing)
                single H3)
      as (lo & hi & avg & _ & _ & _ & _ & _ & _ & Hmean & Hone).
    destruct (Hone eq_refl H4) as (_ & _ & Havg).
    cbn [all_prices single] in Hmean. rewrite <- Hmean. exact Havg.
Defined.

(** Three listings at 0.1 each: the sum rounds up to 0.30000000000000004
    and its third to 0.10000000000000002, above the highest price. *)
Lemma C5_average_above_highest :
  FloatOfStr.of_str "0.1" = Some Sample.f_tenth /\
  valid_binary PyFloat.prec PyFloat.emax Sample.f_tenth = true /\
  extract_price_info Sample.three_tenths =
  Ok {| lowest_price := Some Sample.f_tenth;
        highest_price := Some Sample.f_tenth;
        average_price := Some Sample.f_tenth_up;
        all_prices := [Sample.f_tenth; Sample.f_tenth; Sample.f_tenth] |} /\
  PyFloat.leb Sample.f_tenth_up Sample.f_tenth = false /\
  PyFloat.ltb Sample.f_tenth Sample.f_tenth_up = true.
Proof. vm_compute. repeat split. Qed.

(** The compensated summation of later interpreters gives the same average
    on these three prices. *)
Remark three_tenths_compensated :
  PyFloat.div (PyFloat.sum_compensated [Sample.f_tenth; Sample.f_tenth; Sample.f_tenth])
              (PyFloat.round_int 3) = Sample.f_tenth_up.
Proof. vm_compute. reflexivity. Qed.

(** On either interpreter the three listings at 0.1 give an average above
    the highest price. *)
Remark three_tenths_on_either_interpreter (a : summation) :
  extract_price_info_with a Sample.three_tenths =
  Ok {| lowest_price := Some Sample.f_tenth;
        highest_price := Some Sample.f_tenth;
        average_price := Some Sample.f_tenth_up;
        all_prices := [Sample.f_tenth; Sample.f_tenth; Sample.f_tenth] |}.
Proof. destruct a; vm_compute; reflexivity. Qed.

(** The two interpreters do differ: ten listings at 0.1 average to
    0.09999999999999999 with the sum from the left, below the lowest price,
    and to 0.1 with the compensated sum. *)
Remark ten_tenths_differ :
  (exists info,
      extract_price_info_with Plain ten_tenths = Ok info /\
      lowest_price info = Some Sample.f_tenth /\
      average_price info = Some (S754_finite false 7205759403792793 (-56))) /\
  (exists info,
      extract_price_info_with Compensated ten_tenths = Ok info /\
      lowest_price info = Some Sample.f_tenth /\
      average_price info = Some Sample.f_tenth).
Proof.
  split; eexists; (split; [vm_compute; reflexivity|split; reflexivity]).
Qed.

(* ===================================================================== *)
(** ** Totality *)
(* ===================================================================== *)

Lemma probe_dict_returns (keys : list string) (d : dict) :
  returns (probe keys (JDict d)).
Proof.
  induction keys as [|k keys IH]; [eexists; reflexivity|].
  rewrite probe_dict_cons.
  destruct (lookup k d) as [[]|]; try exact IH. eexists. reflexivity.
Qed.

Lemma extract_cards_returns (v : json) : returns (extract_cards_from_response v).
Proof.
  destruct v as [| | | | | |d]; try (eexists; reflexivity).
  unfold extract_cards_from_response.
  destruct (probe_dict_returns top_keys d) as [[l|] ->]; cbn [bind];
    [eexists; reflexivity|].
  cbn [py_in py_getitem bind]. unfold has_key.
  destruct (lookup "data" d) as [[| | | | | |inner]|]; cbn [bind];
    try (eexists; reflexivity).
  destruct (probe_dict_returns nested_keys inner) as [[l|] ->]; cbn [bind];
    eexists; reflexivity.
Qed.


Lemma record_int_returns (n : Z) (acc : list float) :
  n < 2 ^ 1023 -> returns (record_int n acc).
Proof.
  intros Hn. unfold record_int. destruct (0 <? n) eqn:E.
  - apply Z.ltb_lt in E.
    destruct (FloatFacts.of_int_returns n (conj E Hn)) as [f ->].
    eexists. reflexivity.
  - eexists. reflexivity.
Qed.

Lemma record_price_returns (kv : string * json) (acc : list float) :
  small_ints (snd kv) = true -> returns (record_price kv acc).
Proof.
  destruct kv as [key value]. cbn [snd]. intros Hsmall. unfold record_price.
  destruct (is_price_key key); [|eexists; reflexivity].
  destruct value as [|b|n|x|s|l|d]; try (eexists; reflexivity).
  - apply record_int_returns. destruct b; cbn; lia.
  - apply record_int_returns. cbn in Hsmall. apply Z.ltb_lt. exact Hsmall.
  - destruct (PyFloat.gt0 x); eexists; reflexivity.
  - destruct (FloatOfStr.of_str (strip_currency s)) as [price_val|];
      [destruct (PyFloat.gt0 price_val)|]; eexists; reflexivity.
Qed.

(** The walk returns on every value whose integers [float] can convert. *)
Lemma walk_returns (obj : json) :
  small_ints obj = true -> forall acc, returns (walk obj acc).
Proof.
  induction obj as [| | | | |l IH|d IH] using json_induction;
    intros Hsmall acc; try (eexists; reflexivity).
  - cbn [walk]. cbn [small_ints] in Hsmall.
    rewrite forallb_forall in Hsmall.
    apply for_each_returns. rewrite Forall_forall in IH |- *.
    intros x Hx s. apply (IH x Hx). apply Hsmall. exact Hx.
  - rewrite walk_dict. cbn [small_ints] in Hsmall.
    rewrite forallb_forall in Hsmall.
    destruct (for_each_returns record_price d) with (s := acc) as [recorded ->].
    { apply Forall_forall. intros kv Hkv s.
      apply record_price_returns. apply Hsmall. exact Hkv. }
    cbn [bind]. apply for_each_returns. rewrite Forall_forall in IH |- *.
    intros kv Hkv s. apply (IH kv Hkv). apply Hsmall. exact Hkv.
Qed.




(* ===================================================================== *)
(** ** Price Walker: strings and booleans *)
(* ===================================================================== *)

(** An item that records nothing and has nothing below it does not change
    the walk of the mapping it is in. *)
Lemma walk_skip_entry (kv : string * json) (before after : dict) (acc : list float) :
  (forall s, record_price kv s = Ok s) ->
  (forall s, walk (snd kv) s = Ok s) ->
  walk (JDict (before ++ kv :: after)) acc = walk (JDict (before ++ after)) acc.
Proof.
  intros Hrec Hwalk. rewrite !walk_dict.
  rewrite (for_each_skip record_price kv before after acc Hrec).
  destruct (for_each record_price (before ++ after) acc) as [recorded|];
    [|reflexivity].
  cbn [bind]. apply (for_each_skip (fun kv => walk (snd kv))). exact Hwalk.
Qed.

(** What an item records is found in the list after the loop. *)
Lemma record_loop_keeps (x : float) (kv : string * json) (d : dict) :
  In kv d ->
  (forall s, record_price kv s = Ok (s ++ [x])) ->
  forall acc recorded,
    for_each record_price d acc = Ok recorded -> In x recorded.
Proof.
  intros Hin Hkv. induction d as [|kv0 d IH]; [destruct Hin|].
  intros acc recorded Hrun. cbn [for_each] in Hrun.
  destruct (record_price kv0 acc) as [s1|] eqn:E; [|discriminate].
  cbn [bind] in Hrun. destruct Hin as [->|Hin].
  - rewrite Hkv in E. injection E as <-.
    apply (extends_In (acc ++ [x]) recorded).
    + apply (for_each_preserves record_price extends d extends_refl extends_trans);
        [|exact Hrun].
      apply Forall_forall. intros kv' _ s s'. apply record_price_extends.
    + apply in_or_app. right. left. reflexivity.
  - exact (IH Hin s1 recorded Hrun).
Qed.

Lemma record_true (key : string) (s : list float) :
  is_price_key key = true ->
  record_price (key, JBool true) s = Ok (s ++ [Sample.f_1]).
Proof. intros Hkey. unfold record_price. rewrite Hkey. reflexivity. Qed.

Lemma record_false (key : string) (s : list float) :
  record_price (key, JBool false) s = Ok s.
Proof. unfold record_price. destruct (is_price_key key); reflexivity. Qed.

Lemma walk_records_true (d : dict) (key : string) (acc prices : list float) :
  In (key, JBool true) d -> is_price_key key = true ->
  walk (JDict d) acc = Ok prices -> In Sample.f_1 prices.
Proof.
  intros Hin Hkey Hrun. rewrite walk_dict in Hrun.
  destruct (for_each record_price d acc) as [recorded|] eqn:E; [|discriminate].
  cbn [bind] in Hrun.
  apply (extends_In recorded prices).
  - apply (for_each_preserves (fun kv => walk (snd kv)) extends d
             extends_refl extends_trans); [|exact Hrun].
    apply Forall_forall. intros kv _ s s'. apply walk_extends.
  - apply (record_loop_keeps Sample.f_1 (key, JBool true) d Hin) with (acc := acc);
      [|exact E].
    intros s. apply record_true. exact Hkey.
Qed.

(** C9.  Booleans under a matching key are treated as numbers.  A mapping
    with a matching key bound to [true] has 1.0 in the [all_prices] that is
    returned, and the walk does return when the integers of the mapping can
    be converted; an item bound to [false] records nothing, the walk is the
    same without it. *)
Theorem C9_booleans_under_price_keys :
  (forall d key info,
      In (key, JBool true) d -> is_price_key key = true ->
      extract_price_info (JDict d) = Ok info ->
      In Sample.f_1 (all_prices info)) /\
  (forall d key,
      In (key, JBool true) d -> is_price_key key = true ->
      small_ints (JDict d) = true ->
      exists prices, walk (JDict d) [] = Ok prices /\ In Sample.f_1 prices) /\
  (forall before key after acc,
      walk (JDict (before ++ (key, JBool false) :: after)) acc =
      walk (JDict (before ++ after)) acc) /\
  Sample.integer_value Sample.f_1 = Some 1.
Proof.
  split; [|split; [|split]].
  - intros d key info Hin Hkey Hrun.
    destruct (extract_price_info_summary _ _ Hrun) as [Hwalk _].
    exact (walk_records_true d key [] _ Hin Hkey Hwalk).
  - intros d key Hin Hkey Hsmall.
    destruct (walk_returns (JDict d) Hsmall []) as [prices Hwalk].
    exists prices. split; [exact Hwalk|].
    exact (walk_records_true d key [] _ Hin Hkey Hwalk).
  - intros before key after acc. apply walk_skip_entry.
    + intros s. apply record_false.
    + intros s. reflexivity.
  - reflexivity.
Qed.

(** [isValueSet] matches through ["value"] and is [true]; [hasPrice] matches
    and is [false]; [inStock] does not match. *)
Lemma C9_booleans_under_price_keys_witness :
  let info := {| lowest_price := Some Sample.f_1; highest_price := Some Sample.f_1;
                 average_price := Some Sample.f_1; all_prices := [Sample.f_1] |} in
  In ("isValueSet", JBool true) Sample.flags_items /\
  is_price_key "isValueSet" = true /\
  extract_price_info (JDict Sample.flags_items) = Ok info /\
  In Sample.f_1 (all_prices info).
Proof.
  intros info.
  assert (Hin : In ("isValueSet", JBool true) Sample.flags_items) by (cbn; tauto).
  assert (Hkey : is_price_key "isValueSet" = true) by (vm_compute; reflexivity).
  assert (Hrun : extract_price_info (JDict Sample.flags_items) = Ok info)
    by (vm_compute; reflexivity).
  repeat split; try assumption.
  exact (proj1 C9_booleans_under_price_keys Sample.flags_items "isValueSet" info
           Hin Hkey Hrun).
Defined.

(** C4.  A string under a matching key is coerced after [","], the yen
    sign and ["$"] are removed: ["1,234"] under [minPrice] is recorded as
    1234.0.  A string that does not coerce records nothing and stops
    nothing: the walk of a mapping is the same with and without such an
    item, so whatever else the tree holds is still recorded; ["abc"] is such
    a string. *)
Theorem C4_strings_are_coerced_or_skipped :
  (strip_currency "1,234" = "1234" /\
   strip_currency ("$" ++ PyStr.yen ++ "1,234,567") = "1234567" /\
   FloatOfStr.of_str "1234" = Some Sample.f_1234 /\
   Sample.integer_value Sample.f_1234 = Some 1234 /\
   extract_price_info Sample.one_listing =
   Ok {| lowest_price := Some Sample.f_1234; highest_price := Some Sample.f_1234;
         average_price := Some Sample.f_1234; all_prices := [Sample.f_1234] |}) /\
  (forall key s before after acc,
      FloatOfStr.of_str (strip_currency s) = None ->
      walk (JDict (before ++ (key, JStr s) :: after)) acc =
      walk (JDict (before ++ after)) acc) /\
  (FloatOfStr.of_str (strip_currency "abc") = None /\
   extract_price_info Sample.bad_then_good =
   Ok {| lowest_price := Some Sample.f_5; highest_price := Some Sample.f_1234;
         average_price := Some (S754_finite false 5449179627257856 (-43));
         all_prices := [Sample.f_5; Sample.f_1234] |}).
Proof.
  split; [|split].
  - vm_compute. repeat split.
  - intros key s before after acc Hfail. apply walk_skip_entry.
    + intros s0. unfold record_price. rewrite Hfail.
      destruct (is_price_key key); reflexivity.
    + intros s0. reflexivity.
  - vm_compute. repeat split.
Qed.

Lemma C4_strings_are_coerced_or_skipped_witness :
  FloatOfStr.of_str (strip_currency "abc") = None /\
  walk (JDict ([("id", JInt 1)] ++ ("price", JStr "abc") :: [("minPrice", JStr "1,234")])) [] =
  walk (JDict ([("id", JInt 1)] ++ [("minPrice", JStr "1,234")])) [].
Proof.
  assert (H : FloatOfStr.of_str (strip_currency "abc") = None)
    by (vm_compute; reflexivity).
  split; [exact H|].
  exact (proj1 (proj2 C4_strings_are_coerced_or_skipped)
           "price" "abc" [("id", JInt 1)] [("minPrice", JStr "1,234")] [] H).
Defined.

(** C8.  On [{"streetwears":[{"id":1,"minPrice":"$1,000"},{"id":2,"minPrice":500}]}]
    the shape extractor returns the empty sequence and the price walker
    returns [all_prices = [1000.0, 500.0]] in that order, with lowest 500.0,
    highest 1000.0 and average 750.0. *)
Theorem C8_streetwears_example :
  extract_cards_from_response Sample.streetwears = Ok [] /\
  extract_price_info Sample.streetwears =
  Ok {| lowest_price := Some Sample.f_500; highest_price := Some Sample.f_1000;
        average_price := Some Sample.f_750;
        all_prices := [Sample.f_1000; Sample.f_500] |} /\
  Sample.integer_value Sample.f_500 = Some 500 /\
  Sample.integer_value Sample.f_750 = Some 750 /\
  Sample.integer_value Sample.f_1000 = Some 1000.
Proof. vm_compute. repeat split. Qed.

(* ===================================================================== *)
(** ** Card ID Extractor: examples *)
(* ===================================================================== *)

(** [cardId] comes before [productId] in the probe order, whatever their
    order in the mapping: its value is the one returned. *)
Lemma C7_first_present_id_field_as_string_witness :
  first_present id_fields Sample.two_ids (JInt 42) /\
  (forall float_repr str_repr,
      extract_card_id float_repr str_repr (JDict Sample.two_ids) = Ok (Some "42")).
Proof.
  assert (H : first_present id_fields Sample.two_ids (JInt 42)).
  { exists ["id"], "cardId", ["tradingCardId"; "productId"; "item_id"].
    repeat split. intros k [<-|[]]. reflexivity. }
  split; [exact H|]. intros float_repr str_repr.
  exact (proj1 (C7_first_present_id_field_as_string float_repr str_repr
                  Sample.two_ids) (JInt 42) H).
Defined.

Lemma C10_null_id_is_the_string_None_witness :
  first_present id_fields Sample.null_card JNull /\
  (forall float_repr str_repr,
      extract_card_id float_repr str_repr (JDict Sample.null_card) = Ok (Some "None")).
Proof.
  assert (H : first_present id_fields Sample.null_card JNull).
  { exists ["id"], "cardId", ["tradingCardId"; "productId"; "item_id"].
    repeat split. intros k [<-|[]]. reflexivity. }
  split; [exact H|]. intros float_repr str_repr.
  exact (proj1 (C10_null_id_is_the_string_None float_repr str_repr
                  Sample.null_card) H).
Defined.

(* ===================================================================== *)
(** ** The integers [float] cannot convert *)
(* ===================================================================== *)

Module FloatOverflow.

Import PyFloat FloatFacts.













End FloatOverflow.

(* ===================================================================== *)
(** ** Price Walker: when it raises *)
(* ===================================================================== *)

Section ForEachOutcome.
Context {A S : Type}.
Variable body : A -> S -> result S.
Variable bad : A -> bool.
Variable e : exn.

End ForEachOutcome.




Section ForEachEither.
Context {A S : Type}.
Variable body : A -> S -> result S.
Variable e : exn.

End ForEachEither.




(* ===================================================================== *)
(** ** Price Walker: the list it builds *)
(* ===================================================================== *)

Section ForEachLists.
Context {A B : Type}.
Variable body : A -> list B -> result (list B).

(** When every iteration appends to the list it is given what it appends
    to the empty list, so does the loop. *)
Lemma for_each_appends (items : list A) :
  Forall (fun x => forall s, body x s = (p <- body x [] ;; Ok (s ++ p))) items ->
  forall s, for_each body items s = (p <- for_each body items [] ;; Ok (s ++ p)).
Proof.
  intros Hall.
  induction Hall as [|x items Hx _ IH]; intros s; cbn [for_each bind].
  - rewrite app_nil_r. reflexivity.
  - rewrite (Hx s). destruct (body x []) as [p|]; cbn [bind]; [|reflexivity].
    rewrite (IH (s ++ p)), (IH p).
    destruct (for_each body items []) as [q|]; cbn [bind]; [|reflexivity].
    rewrite app_assoc. reflexivity.
Qed.

(** What one iteration always leaves in the list is in the list after the
    loop, when no iteration removes anything. *)
Lemma for_each_member (x : B) (a : A) (items : list A) :
  (forall y s s', body y s = Ok s' -> extends s s') ->
  In a items ->
  (forall s s', body a s = Ok s' -> In x s') ->
  forall s s', for_each body items s = Ok s' -> In x s'.
Proof.
  intros Hext Hin Ha. induction items as [|y items IH]; [destruct Hin|].
  intros s s' Hrun. cbn [for_each] in Hrun.
  destruct (body y s) as [s1|] eqn:E; [|discriminate]. cbn [bind] in Hrun.
  destruct Hin as [->|Hin].
  - apply (extends_In s1 s'); [|exact (Ha _ _ E)].
    apply (for_each_preserves body extends items extends_refl extends_trans);
      [|exact Hrun].
    apply Forall_forall. intros z _ t t'. apply Hext.
  - exact (IH Hin s1 s' Hrun).
Qed.
End ForEachLists.

Lemma record_price_appends (kv : string * json) (acc : list float) :
  record_price kv acc = (p <- record_price kv [] ;; Ok (acc ++ p)).
Proof.
  destruct kv as [key value]. unfold record_price.
  destruct (is_price_key key); [|cbn; rewrite app_nil_r; reflexivity].
  assert (Hint : forall n, record_int n acc = (p <- record_int n [] ;; Ok (acc ++ p))).
  { intros n. unfold record_int. destruct (0 <? n); [|cbn; rewrite app_nil_r; reflexivity].
    destruct (PyFloat.of_int n); reflexivity. }
  destruct value as [|b|n|x|str|l|d]; try (cbn; rewrite app_nil_r; reflexivity).
  - apply Hint.
  - apply Hint.
  - destruct (PyFloat.gt0 x); cbn; rewrite ?app_nil_r; reflexivity.
  - destruct (FloatOfStr.of_str (strip_currency str)) as [price_val|];
      [destruct (PyFloat.gt0 price_val)|]; cbn; rewrite ?app_nil_r; reflexivity.
Qed.

(** The walk appends to the list it is given what it appends to the empty
    list: its outcome does not depend on what was recorded before. *)
Lemma walk_appends (v : json) :
  forall acc, walk v acc = (p <- walk v [] ;; Ok (acc ++ p)).
Proof.
  induction v as [| | | | |l IH|d IH] using json_induction; intros acc;
    try (cbn; rewrite app_nil_r; reflexivity).
  - cbn [walk]. exact (for_each_appends walk l IH acc).
  - rewrite !walk_dict.
    assert (Hown : forall t, for_each record_price d t =
                             (p <- for_each record_price d [] ;; Ok (t ++ p))).
    { apply for_each_appends. apply Forall_forall. intros kv _ t.
      apply record_price_appends. }
    pose proof (for_each_appends (fun kv => walk (snd kv)) d IH) as Hnested.
    rewrite (Hown acc).
    destruct (for_each record_price d []) as [p|]; cbn [bind]; [|reflexivity].
    rewrite (Hnested (acc ++ p)), (Hnested p).
    destruct (for_each (fun kv => walk (snd kv)) d []) as [q|]; cbn [bind];
      [|reflexivity].
    rewrite app_assoc. reflexivity.
Qed.

Lemma walk_keeps_item (data : json) (key : string) (value : json) (x : float) :
  item_of data key value ->
  (forall s s', record_price (key, value) s = Ok s' -> In x s') ->
  forall acc prices, walk data acc = Ok prices -> In x prices.
Proof.
  intros Hitem.
  induction Hitem as [d key value Hin|d k0 child key value Hin _ IH
                     |l child key value Hin _ IH];
    intros Halone acc prices Hwalk.
  - rewrite walk_dict in Hwalk.
    destruct (for_each record_price d acc) as [recorded|] eqn:E; [|discriminate].
    cbn [bind] in Hwalk. apply (extends_In recorded prices).
    + apply (for_each_preserves (fun kv => walk (snd kv)) extends d
               extends_refl extends_trans); [|exact Hwalk].
      apply Forall_forall. intros kv _ s s'. apply walk_extends.
    + apply (for_each_member record_price x (key, value) d) with (s := acc);
        [|exact Hin|exact Halone|exact E].
      intros y s s'. apply record_price_extends.
  - rewrite walk_dict in Hwalk.
    destruct (for_each record_price d acc) as [recorded|] eqn:E; [|discriminate].
    cbn [bind] in Hwalk.
    apply (for_each_member (fun kv => walk (snd kv)) x (k0, child) d)
      with (s := recorded); [|exact Hin| |exact Hwalk].
    + intros y s s'. apply walk_extends.
    + intros s s'. cbn [snd]. apply (IH Halone).
  - cbn [walk] in Hwalk.
    apply (for_each_member walk x child l) with (s := acc);
      [|exact Hin| |exact Hwalk].
    + intros y s s'. apply walk_extends.
    + intros s s'. apply (IH Halone).
Qed.

(** X3.  Nothing is missed at any depth: what an item records on its own
    (a positive number under a matching key, a string that coerces to one)
    is in [all_prices] wherever the item sits in the value, under whatever
    keys and inside whatever sequences. *)
Theorem X3_items_are_recorded_at_any_depth
    (data : json) (key : string) (value : json) (x : float) (info : price_info) :
  item_of data key value ->
  record_price (key, value) [] = Ok [x] ->
  extract_price_info data = Ok info ->
  In x (all_prices info).
Proof.
  intros Hitem Hrec Hrun.
  destruct (extract_price_info_summary data info Hrun) as [Hwalk _].
  apply (walk_keeps_item data key value x Hitem) with (acc := []); [|exact Hwalk].
  intros s s' Hs. rewrite record_price_appends, Hrec in Hs. cbn [bind] in Hs.
  injection Hs as <-. apply in_or_app. right. left. reflexivity.
Qed.

(** X4.  What a value records does not depend on what was recorded
    before it, and the prices of a sequence are those of its parts, in
    order: the walk of [l1 ++ l2] is the walk of [l1], then the walk of
    [l2], their lists appended; it raises when one of the two does. *)
Theorem X4_prices_of_a_sequence_concatenate :
  (forall v acc, walk v acc = (p <- walk v [] ;; Ok (acc ++ p))) /\
  (forall l1 l2,
      walk (JList (l1 ++ l2)) [] =
      (p1 <- walk (JList l1) [] ;; p2 <- walk (JList l2) [] ;; Ok (p1 ++ p2))).
Proof.
  split; [exact walk_appends|].
  intros l1 l2. cbn [walk]. rewrite for_each_app.
  destruct (for_each walk l1 []) as [p1|]; cbn [bind]; [|reflexivity].
  change (for_each walk l2 p1) with (walk (JList l2) p1).
  rewrite (walk_appends (JList l2) p1). reflexivity.
Qed.

Lemma X3_items_are_recorded_at_any_depth_witness :
  let info := {| lowest_price := Some Sample.f_tenth;
                 highest_price := Some Sample.f_tenth;
                 average_price := Some Sample.f_tenth;
                 all_prices := [Sample.f_tenth] |} in
  item_of Cases.deep_listing "askPrice" (JFloat Sample.f_tenth) /\
  record_price ("askPrice", JFloat Sample.f_tenth) [] = Ok [Sample.f_tenth] /\
  extract_price_info Cases.deep_listing = Ok info /\
  In Sample.f_tenth (all_prices info).
Proof.
  intros info.
  assert (Hitem : item_of Cases.deep_listing "askPrice" (JFloat Sample.f_tenth)).
  { eapply item_under_key; [left; reflexivity|].
    eapply item_under_key; [left; reflexivity|].
    eapply item_in_list; [left; reflexivity|].
    eapply item_under_key; [right; left; reflexivity|].
    apply item_here. left. reflexivity. }
  assert (Hrec : record_price ("askPrice", JFloat Sample.f_tenth) [] = Ok [Sample.f_tenth])
    by (vm_compute; reflexivity).
  assert (Hrun : extract_price_info Cases.deep_listing = Ok info)
    by (vm_compute; reflexivity).
  repeat split; try assumption.
  exact (X3_items_are_recorded_at_any_depth _ _ _ _ info Hitem Hrec Hrun).
Defined.

(* ===================================================================== *)
(** ** Card ID Extractor on values that are not mappings *)
(* ===================================================================== *)

Section CardIdOutside.

Variable float_repr : float -> string.
Variable str_repr : string -> string.

Lemma first_field_str (fields : list string) (s : string) :
  first_field float_repr str_repr fields (JStr s) =
  if existsb (fun field => PyStr.contains field s) fields
  then Raise TypeError else Ok None.
Proof.
  induction fields as [|field fields IH]; [reflexivity|].
  cbn [first_field py_in bind existsb].
  destruct (PyStr.contains field s); [reflexivity|exact IH].
Qed.

Lemma first_field_list (fields : list string) (l : list json) :
  first_field float_repr str_repr fields (JList l) =
  if existsb (fun field =>
                existsb (fun x => match x with
                                  | JStr s => String.eqb field s
                                  | _ => false
                                  end) l) fields
  then Raise TypeError else Ok None.
Proof.
  induction fields as [|field fields IH]; [reflexivity|].
  cbn [first_field py_in bind existsb].
  destruct (existsb _ l); [reflexivity|exact IH].
Qed.

(** X5.  On a value that is not a mapping [extract_card_id] never finds an
    id.  [None], a boolean or a number raises [TypeError]; so does a string
    that has one of the five field names as a substring and a sequence that
    has one as an element; any other string or sequence gives [None]. *)
Theorem X5_card_id_of_a_non_mapping (v : json) :
  (forall d, v <> JDict d) ->
  extract_card_id float_repr str_repr v =
  match v with
  | JStr _ | JList _ => if names_id_field v then Raise TypeError else Ok None
  | _ => Raise TypeError
  end.
Proof.
  intros Hnot. unfold extract_card_id.
  destruct v as [| | | | s|l|d]; try reflexivity.
  - apply first_field_str.
  - apply first_field_list.
  - exfalso. exact (Hnot d eq_refl).
Qed.

End CardIdOutside.

(** The string ["valid"] holds ["id"]: it raises. *)
Lemma X5_card_id_of_a_non_mapping_witness :
  (forall d, JStr "valid" <> JDict d) /\
  (forall float_repr str_repr,
      extract_card_id float_repr str_repr (JStr "valid") = Raise TypeError).
Proof.
  assert (H : forall d, JStr "valid" <> JDict d) by (intros d; discriminate).
  split; [exact H|]. intros float_repr str_repr.
  exact (X5_card_id_of_a_non_mapping float_repr str_repr (JStr "valid") H).
Defined.

(* ===================================================================== *)
(** ** The key test of the price walker *)
(* ===================================================================== *)

Lemma lower_app (a b : string) :
  PyStr.lower (a ++ b) = (PyStr.lower a ++ PyStr.lower b)%string.
Proof.
  induction a as [|c a IH]; [reflexivity|]. cbn. rewrite IH. reflexivity.
Qed.

Lemma str_app_assoc (a b c : string) :
  ((a ++ b) ++ c = a ++ (b ++ c))%string.
Proof.
  induction a as [|x a IH]; [reflexivity|]. cbn. rewrite IH. reflexivity.
Qed.

Lemma prefix_iff (p s : string) :
  prefix p s = true <-> exists b, s = (p ++ b)%string.
Proof.
  revert s. induction p as [|c p IH]; intros s.
  - split; [intros _; exists s; reflexivity|destruct s; reflexivity].
  - destruct s as [|c' s]; cbn [prefix].
    + split; [discriminate|intros [b Hb]; discriminate Hb].
    + destruct (ascii_dec c c') as [->|Hne].
      * rewrite IH. split; intros [b Hb]; exists b.
        -- cbn. rewrite Hb. reflexivity.
        -- cbn in Hb. injection Hb as ->. reflexivity.
      * split; [discriminate|].
        intros [b Hb]. cbn in Hb. injection Hb as Hc _. congruence.
Qed.

(** [sub in s] holds exactly when [s] is [sub] between two strings. *)
Lemma contains_iff (sub s : string) :
  PyStr.contains sub s = true <-> exists a b, s = (a ++ sub ++ b)%string.
Proof.
  induction s as [|c s IH].
  - cbn [PyStr.contains]. destruct (prefix sub "") eqn:E.
    + split; [intros _|reflexivity].
      apply prefix_iff in E. destruct E as [b Hb]. exists "", b. exact Hb.
    + split; [discriminate|]. intros (a & b & Hab).
      destruct a as [|c a]; [|discriminate Hab]. cbn in Hab.
      assert (prefix sub "" = true) by (apply prefix_iff; exists b; exact Hab).
      congruence.
  - cbn [PyStr.contains]. destruct (prefix sub (String c s)) eqn:E.
    + split; [intros _|reflexivity].
      apply prefix_iff in E. destruct E as [b Hb]. exists "", b. exact Hb.
    + rewrite IH. split.
      * intros (a & b & ->). exists (String c a), b. reflexivity.
      * intros (a & b & Hab). destruct a as [|c' a].
        -- cbn in Hab.
           assert (prefix sub (String c s) = true)
             by (apply prefix_iff; exists b; exact Hab).
           congruence.
        -- cbn in Hab. injection Hab as _ ->. exists a, b. reflexivity.
Qed.

(** X6.  The key test is a substring test that ignores the case of ASCII
    letters: a key matches exactly when its lowercase form has "price",
    "amount" or "value" somewhere inside, and a key that matches still
    matches with anything written before and after it. *)
Theorem X6_price_keys_match_inside_any_key (key : string) :
  (is_price_key key = true <->
   exists word a b,
     In word price_keys /\ PyStr.lower key = (a ++ word ++ b)%string) /\
  (is_price_key key = true ->
   forall before after, is_price_key (before ++ key ++ after) = true).
Proof.
  assert (Hiff : forall k, is_price_key k = true <->
                 exists word a b,
                   In word price_keys /\ PyStr.lower k = (a ++ word ++ b)%string).
  { intros k. unfold is_price_key. rewrite existsb_exists. split.
    - intros (word & Hin & Hc). apply contains_iff in Hc.
      destruct Hc as (a & b & Hab). exists word, a, b. split; assumption.
    - intros (word & a & b & Hin & Hab). exists word. split; [exact Hin|].
      apply contains_iff. exists a, b. exact Hab. }
  split; [apply Hiff|].
  intros Hkey before after. apply Hiff. apply Hiff in Hkey.
  destruct Hkey as (word & a & b & Hin & Hab).
  exists word, (PyStr.lower before ++ a)%string, (b ++ PyStr.lower after)%string.
  split; [exact Hin|].
  rewrite !lower_app, Hab.
  rewrite !str_app_assoc. reflexivity.
Qed.

Lemma X6_price_keys_match_inside_any_key_witness :
  is_price_key "Price" = true /\
  is_price_key ("min" ++ "Price" ++ "_JPY") = true.
Proof.
  assert (H : is_price_key "Price" = true) by (vm_compute; reflexivity).
  split; [exact H|].
  exact (proj2 (X6_price_keys_match_inside_any_key "Price") H "min" "_JPY").
Defined.

(* ===================================================================== *)
(** ** Shape Extractor: where its result comes from *)
(* ===================================================================== *)

Lemma probe_found (keys : list string) (d : dict) (l : list json) :
  probe keys (JDict d) = Ok (Some l) ->
  exists k, In k keys /\ lookup k d = Some (JList l).
Proof.
  induction keys as [|k keys IH]; [discriminate|].
  rewrite probe_dict_cons.
  destruct (lookup k d) as [[| | | | |l'|]|] eqn:E;
    try (intros H; destruct (IH H) as (k' & Hin & Hk');
         exists k'; split; [right; exact Hin|exact Hk']).
  intros [= <-]. exists k. split; [left; reflexivity|exact E].
Qed.

(** X7.  The shape extractor makes nothing up: a result that is not empty
    is a sequence that the response binds to a candidate key, at the top
    or one level down under [data]. *)
Theorem X7_cards_come_from_the_response (v : json) (l : list json) :
  extract_cards_from_response v = Ok l ->
  l <> [] ->
  exists d,
    v = JDict d /\
    ((exists k, In k top_keys /\ lookup k d = Some (JList l)) \/
     (exists inner k,
         lookup "data" d = Some (JDict inner) /\
         In k nested_keys /\ lookup k inner = Some (JList l))).
Proof.
  intros Hrun Hne.
  destruct v as [| | | | | |d];
    try (cbn in Hrun; injection Hrun as <-; contradiction).
  exists d. split; [reflexivity|].
  unfold extract_cards_from_response in Hrun.
  destruct (probe_dict_returns top_keys d) as [[l0|] Hp]; rewrite Hp in Hrun;
    cbn [bind] in Hrun.
  - injection Hrun as <-. left. exact (probe_found _ _ _ Hp).
  - cbn [py_in py_getitem bind] in Hrun. unfold has_key in Hrun.
    destruct (lookup "data" d) as [[| | | | | |inner]|] eqn:E; cbn [bind] in Hrun;
      try (injection Hrun as <-; contradiction).
    destruct (probe_dict_returns nested_keys inner) as [[l0|] Hp']; rewrite Hp' in Hrun;
      cbn [bind] in Hrun; [|injection Hrun as <-; contradiction].
    injection Hrun as <-. right.
    destruct (probe_found _ _ _ Hp') as (k & Hin & Hk).
    exists inner, k. repeat split; assumption.
Qed.

Lemma X7_cards_come_from_the_response_witness :
  let l := [JDict [("id", JInt 2)]] in
  extract_cards_from_response Cases.two_levels = Ok l /\
  l <> [] /\
  exists d,
    Cases.two_levels = JDict d /\
    ((exists k, In k top_keys /\ lookup k d = Some (JList l)) \/
     (exists inner k,
         lookup "data" d = Some (JDict inner) /\
         In k nested_keys /\ lookup k inner = Some (JList l))).
Proof.
  intros l.
  assert (Hrun : extract_cards_from_response Cases.two_levels = Ok l)
    by (vm_compute; reflexivity).
  assert (Hne : l <> []) by discriminate.
  repeat split; try assumption.
  exact (X7_cards_come_from_the_response Cases.two_levels l Hrun Hne).
Defined.

(* ===================================================================== *)
(** ** [search_trading_cards] *)
(* ===================================================================== *)

Section SearchFacts.

Variable requests_get_json : string -> dict -> option dict -> Z -> fetched json.

Lemma try_endpoints_first (before after : list (string * dict))
    (config : string * dict) (body : json) (errors : list json) :
  (forall c, In c before -> exists message, get_json requests_get_json (fst c) (Some (snd c)) = Failed message) ->
  get_json requests_get_json (fst config) (Some (snd config)) = Fetched body ->
  try_endpoints requests_get_json (before ++ config :: after) errors =
  JDict [("success", JBool true); ("data", body); ("endpoint", JStr (fst config))].
Proof.
  intros Hfail Hok. revert errors.
  induction before as [|c before IH]; intros errors; cbn [app try_endpoints].
  - rewrite Hok. reflexivity.
  - destruct (Hfail c (or_introl eq_refl)) as [message Hc].
    rewrite Hc. apply IH.
    intros c' Hin. apply Hfail. right. exact Hin.
Qed.

Lemma try_endpoints_all_fail (configs : list (string * dict)) (errors : list json) :
  (forall c, In c configs -> exists message, get_json requests_get_json (fst c) (Some (snd c)) = Failed message) ->
  try_endpoints requests_get_json configs errors =
  JDict [("success", JBool false);
         ("errors",
          JList (errors ++
                 map (fun c => error_entry c
                                 match failure_of requests_get_json c with
                                 | Some message => message
                                 | None => ""
                                 end) configs))].
Proof.
  revert errors. induction configs as [|c configs IH]; intros errors Hfail;
    cbn [try_endpoints map].
  - rewrite app_nil_r. reflexivity.
  - destruct (Hfail c (or_introl eq_refl)) as [message Hc].
    unfold failure_of. rewrite Hc.
    rewrite IH by (intros c' Hin; apply Hfail; right; exact Hin).
    rewrite <- app_assoc. reflexivity.
Qed.

(** X8.  The first endpoint that answers wins: when the endpoints before
    it fail, the result is a success that carries its body and its URL, and
    the endpoints after it play no part. *)
Theorem X8_first_answering_endpoint_wins
    (keyword : string) (page per_page : Z)
    (before after : list (string * dict)) (config : string * dict) (body : json) :
  endpoints keyword page per_page = before ++ config :: after ->
  (forall c, In c before ->
             exists message,
               get_json requests_get_json (fst c) (Some (snd c)) = Failed message) ->
  get_json requests_get_json (fst config) (Some (snd config)) = Fetched body ->
  search_trading_cards requests_get_json keyword page per_page =
  JDict [("success", JBool true); ("data", body); ("endpoint", JStr (fst config))].
Proof.
  intros Hsplit Hfail Hok. unfold search_trading_cards. rewrite Hsplit.
  exact (try_endpoints_first before after config body [] Hfail Hok).
Qed.

(** X9.  When the three endpoints fail the result is a failure whose
    [errors] has one entry for each, in the order they were tried, with the
    URL, the parameters and the message of the exception. *)
Theorem X9_all_endpoints_failing
    (keyword : string) (page per_page : Z) :
  (forall c, In c (endpoints keyword page per_page) ->
             exists message,
               get_json requests_get_json (fst c) (Some (snd c)) = Failed message) ->
  exists m1 m2 m3 c1 c2 c3,
    endpoints keyword page per_page = [c1; c2; c3] /\
    failure_of requests_get_json c1 = Some m1 /\
    failure_of requests_get_json c2 = Some m2 /\
    failure_of requests_get_json c3 = Some m3 /\
    search_trading_cards requests_get_json keyword page per_page =
    JDict [("success", JBool false);
           ("errors", JList [error_entry c1 m1; error_entry c2 m2;
                             error_entry c3 m3])].
Proof.
  intros Hfail. unfold search_trading_cards.
  rewrite (try_endpoints_all_fail _ [] Hfail).
  assert (Hmsg : forall c, In c (endpoints keyword page per_page) ->
                 exists m, failure_of requests_get_json c = Some m).
  { intros c Hin. destruct (Hfail c Hin) as [m Hm]. exists m.
    unfold failure_of. rewrite Hm. reflexivity. }
  unfold endpoints in *.
  destruct (Hmsg _ (or_introl eq_refl)) as [m1 H1].
  destruct (Hmsg _ (or_intror (or_introl eq_refl))) as [m2 H2].
  destruct (Hmsg _ (or_intror (or_intror (or_introl eq_refl)))) as [m3 H3].
  eexists m1, m2, m3, _, _, _.
  split; [reflexivity|]. split; [exact H1|]. split; [exact H2|].
  split; [exact H3|].
  cbn [map app]. rewrite H1, H2, H3. reflexivity.
Qed.

Lemma try_endpoints_shape (configs : list (string * dict)) (errors : list json) :
  (exists config body,
      In config configs /\ get_json requests_get_json (fst config) (Some (snd config)) = Fetched body /\
      try_endpoints requests_get_json configs errors =
      JDict [("success", JBool true); ("data", body);
             ("endpoint", JStr (fst config))]) \/
  (exists more,
      List.length more = List.length configs /\
      try_endpoints requests_get_json configs errors =
      JDict [("success", JBool false); ("errors", JList (errors ++ more))]).
Proof.
  revert errors. induction configs as [|c configs IH]; intros errors;
    cbn [try_endpoints].
  - right. exists []. rewrite app_nil_r. split; reflexivity.
  - destruct (get_json requests_get_json (fst c) (Some (snd c))) as [body|message] eqn:E.
    + left. exists c, body. repeat split; [left; reflexivity|exact E].
    + destruct (IH (errors ++ [error_entry c message]))
        as [(config & body & Hin & Hok & ->)|(more & Hlen & ->)].
      * left. exists config, body. repeat split; [right; exact Hin|exact Hok].
      * right. exists (error_entry c message :: more).
        split; [cbn; rewrite Hlen; reflexivity|].
        rewrite <- app_assoc. reflexivity.
Qed.

(** X10.  What the caller reads off the result is always there.  Either
    [result["success"]] is [True], [result["data"]] is the body one of the
    three endpoints answered with, [result["endpoint"]] is its URL, and
    [extract_cards_from_response] returns on that body; or
    [result["success"]] is [False] and [result["errors"]] is a sequence of
    three entries. *)
Theorem X10_search_result_has_what_the_caller_reads
    (keyword : string) (page per_page : Z) :
  let result := search_trading_cards requests_get_json keyword page per_page in
  (py_getitem result "success" = Ok (JBool true) /\
   exists config body,
     In config (endpoints keyword page per_page) /\
     get_json requests_get_json (fst config) (Some (snd config)) = Fetched body /\
     py_getitem result "data" = Ok body /\
     py_getitem result "endpoint" = Ok (JStr (fst config)) /\
     returns (extract_cards_from_response body)) \/
  (py_getitem result "success" = Ok (JBool false) /\
   exists errors,
     py_getitem result "errors" = Ok (JList errors) /\ List.length errors = 3%nat).
Proof.
  intros result. unfold result, search_trading_cards.
  destruct (try_endpoints_shape (endpoints keyword page per_page) [])
    as [(config & body & Hin & Hok & ->)|(more & Hlen & ->)].
  - left. split; [reflexivity|]. exists config, body.
    repeat split; try assumption; try reflexivity.
    apply extract_cards_returns.
  - right. split; [reflexivity|]. exists more. split; [reflexivity|exact Hlen].
Qed.

End SearchFacts.

Lemma X8_first_answering_endpoint_wins_witness :
  let body := JDict [("items", JList [JDict [("id", JInt 1)]])] in
  get_json Cases.second_only "https://snkrdunk.com/en/v1/search"
           (Some [("q", JStr "Pikachu"); ("type", JStr "trading-cards");
                  ("page", JInt 1); ("perPage", JInt 20)]) = Fetched body /\
  search_trading_cards Cases.second_only "Pikachu" 1 20 =
  JDict [("success", JBool true); ("data", body);
         ("endpoint", JStr "https://snkrdunk.com/en/v1/search")].
Proof.
  intros body. split; [reflexivity|].
  apply (X8_first_answering_endpoint_wins Cases.second_only "Pikachu" 1 20
           [("https://snkrdunk.com/en/v1/trading-cards",
             [("keyword", JStr "Pikachu"); ("page", JInt 1);
              ("perPage", JInt 20); ("sortType", JStr "popular")])]
           [("https://snkrdunk.com/en/v1/products/search",
             [("keyword", JStr "Pikachu"); ("category", JStr "trading-cards");
              ("page", JInt 1); ("limit", JInt 20)])]
           ("https://snkrdunk.com/en/v1/search",
            [("q", JStr "Pikachu"); ("type", JStr "trading-cards");
             ("page", JInt 1); ("perPage", JInt 20)])
           body).
  - reflexivity.
  - intros c [<-|[]]. exists "503 Server Error". reflexivity.
  - reflexivity.
Defined.

Lemma X9_all_endpoints_failing_witness :
  (forall c, In c (endpoints "Pikachu" 1 20) ->
             exists message,
               get_json Cases.never (fst c) (Some (snd c)) = Failed message) /\
  exists m1 m2 m3 c1 c2 c3,
    endpoints "Pikachu" 1 20 = [c1; c2; c3] /\
    failure_of Cases.never c1 = Some m1 /\
    failure_of Cases.never c2 = Some m2 /\
    failure_of Cases.never c3 = Some m3 /\
    search_trading_cards Cases.never "Pikachu" 1 20 =
    JDict [("success", JBool false);
           ("errors", JList [error_entry c1 m1; error_entry c2 m2;
                             error_entry c3 m3])].
Proof.
  assert (H : forall c, In c (endpoints "Pikachu" 1 20) ->
              exists message,
                get_json Cases.never (fst c) (Some (snd c)) = Failed message).
  { intros c _. exists "timed out". reflexivity. }
  split; [exact H|].
  exact (X9_all_endpoints_failing Cases.never "Pikachu" 1 20 H).
Defined.

(* ===================================================================== *)
(** ** [SnkrdunkScraper.search_cards] *)
(* ===================================================================== *)

Module ScraperFacts.

Import Scraper.

Section CardsFacts.

Variable float_repr : float -> string.
Variable str_repr : string -> string.
Variable requests_get_json : string -> dict -> dict -> fetched json.

Lemma card_of_a_dict (d : dict) :
  card_of float_repr str_repr (JDict d) = Done (card_of_dict float_repr str_repr d).
Proof. reflexivity. Qed.

Lemma card_of_other (item : json) :
  is_dict item = false -> card_of float_repr str_repr item = Caught AttributeError.
Proof. destruct item; try reflexivity. discriminate. Qed.

Lemma collect_cards_dicts (items : list json) :
  forallb is_dict items = true ->
  forall cards,
    collect_cards float_repr str_repr items cards =
    Done (cards ++ map (fun item => card_of_dict float_repr str_repr (as_dict item)) items).
Proof.
  induction items as [|item items IH]; intros Hall cards; cbn [collect_cards map].
  - rewrite app_nil_r. reflexivity.
  - cbn [forallb] in Hall. apply andb_true_iff in Hall. destruct Hall as [Hitem Hall].
    destruct item; try discriminate.
    rewrite card_of_a_dict. cbn [and_then as_dict].
    rewrite (IH Hall). rewrite <- app_assoc. reflexivity.
Qed.

(** The loop ends at the first item that is not a mapping. *)
Lemma collect_cards_stops (items : list json) :
  forallb is_dict items = false ->
  forall cards, collect_cards float_repr str_repr items cards = Caught AttributeError.
Proof.
  induction items as [|item items IH]; intros Hsome cards; [discriminate|].
  cbn [collect_cards]. cbn [forallb] in Hsome.
  destruct (is_dict item) eqn:E.
  - destruct item; try discriminate. rewrite card_of_a_dict. cbn [and_then].
    apply IH. exact Hsome.
  - rewrite (card_of_other item E). reflexivity.
Qed.

Lemma forallb_is_dict_strings {A : Type} (f : A -> string) (l : list A) :
  l <> [] -> forallb is_dict (map (fun x => JStr (f x)) l) = false.
Proof. destruct l; [contradiction|reflexivity]. Qed.

Lemma forallb_is_dict_chars (s : string) :
  s <> EmptyString -> forallb is_dict (chars s) = false.
Proof. destruct s; [contradiction|reflexivity]. Qed.

(** What the loop gives on the items drawn from any value: cards only for
    a sequence of mappings. *)
Lemma cards_of_iterable (streetwears : json) :
  match and_then (py_iter streetwears)
                 (fun items => collect_cards float_repr str_repr items []) with
  | Done cards =>
      cards = [] \/
      exists items,
        streetwears = JList items /\ forallb is_dict items = true /\
        cards = map (fun item => card_of_dict float_repr str_repr (as_dict item)) items
  | Caught _ => True
  end.
Proof.
  destruct streetwears as [| | | |s|l|d]; cbn [py_iter and_then]; try exact I.
  - destruct s as [|c s]; [left; reflexivity|].
    rewrite collect_cards_stops by (apply forallb_is_dict_chars; discriminate).
    exact I.
  - destruct (forallb is_dict l) eqn:E.
    + rewrite (collect_cards_dicts l E). right. exists l. repeat split; assumption.
    + rewrite (collect_cards_stops l E). exact I.
  - destruct d as [|kv d]; [left; reflexivity|].
    rewrite collect_cards_stops
      by (apply (forallb_is_dict_strings fst); discriminate).
    exact I.
Qed.

(** X11.  When the search answers with a mapping whose [streetwears] is a
    sequence of mappings, [search_cards] returns one card for each, in
    order, with the item's [id], [name], [thumbnailUrl] and [minPrice]
    ([None] for a field the item lacks) and the URL of the card built from
    the id; nothing is printed. *)
Theorem X11_one_card_for_each_listing
    (keyword : string) (d : dict) (items : list json) :
  requests_get_json (api_url ++ "/search")
                    [("keyword", JStr keyword); ("perPage", JInt 21);
                     ("page", JInt 1)] headers = Fetched (JDict d) ->
  lookup "streetwears" d = Some (JList items) ->
  forallb is_dict items = true ->
  search_cards float_repr str_repr requests_get_json keyword =
  (map (fun item => card_of_dict float_repr str_repr (as_dict item)) items, None).
Proof.
  intros Hreq Hsw Hall. unfold search_cards, cards_of_response.
  rewrite Hreq. cbn [py_get and_then]. rewrite Hsw. cbn [py_iter and_then].
  rewrite (collect_cards_dicts items Hall). reflexivity.
Qed.

(** X12.  All or nothing: [search_cards] returns cards only when the
    answer is a mapping whose [streetwears] is a sequence made of mappings
    only.  One listing that is not a mapping, a [streetwears] that is not a
    sequence, an answer that is not a mapping or a request that fails all
    give the empty list. *)
Theorem X12_cards_only_from_a_sequence_of_mappings (keyword : string) :
  fst (search_cards float_repr str_repr requests_get_json keyword) <> [] ->
  exists d items,
    requests_get_json (api_url ++ "/search")
                      [("keyword", JStr keyword); ("perPage", JInt 21);
                       ("page", JInt 1)] headers = Fetched (JDict d) /\
    lookup "streetwears" d = Some (JList items) /\
    forallb is_dict items = true /\
    search_cards float_repr str_repr requests_get_json keyword =
    (map (fun item => card_of_dict float_repr str_repr (as_dict item)) items, None).
Proof.
  unfold search_cards, cards_of_response.
  destruct (requests_get_json _ _ _) as [data|message]; [|intros H; exfalso; apply H; reflexivity].
  destruct data as [| | | | | |d];
    try (intros H; exfalso; apply H; reflexivity).
  cbn [py_get and_then].
  destruct (lookup "streetwears" d) as [streetwears|] eqn:E;
    [|intros H; exfalso; apply H; reflexivity].
  pose proof (cards_of_iterable streetwears) as Hcards.
  destruct (and_then (py_iter streetwears) _) as [cards|e];
    [|intros H; exfalso; apply H; reflexivity].
  cbn [fst]. intros Hne.
  destruct Hcards as [->|(items & -> & Hall & ->)]; [contradiction|].
  exists d, items. repeat split; assumption.
Qed.

End CardsFacts.

End ScraperFacts.

Lemma X11_one_card_for_each_listing_witness :
  let fr := fun _ : float => "" in
  let sr := fun s : string => s in
  Cases.always Cases.two_streetwears
    (Scraper.api_url ++ "/search")
    [("keyword", JStr "Pikachu"); ("perPage", JInt 21); ("page", JInt 1)]
    Scraper.headers =
  Fetched Cases.two_streetwears /\
  Scraper.search_cards fr sr (Cases.always Cases.two_streetwears) "Pikachu" =
  ([JDict [("id", JInt 7); ("name", JStr "Pikachu"); ("thumbnail", JNull);
           ("min_price", JInt 500);
           ("url", JStr "https://snkrdunk.com/en/trading-cards/7")];
    JDict [("id", JNull); ("name", JStr "Eevee"); ("thumbnail", JNull);
           ("min_price", JNull);
           ("url", JStr "https://snkrdunk.com/en/trading-cards/None")]],
   None).
Proof.
  intros fr sr. split; [reflexivity|].
  exact (ScraperFacts.X11_one_card_for_each_listing fr sr
           (Cases.always Cases.two_streetwears) "Pikachu" _ _
           eq_refl eq_refl eq_refl).
Defined.

Lemma X12_cards_only_from_a_sequence_of_mappings_witness :
  let fr := fun _ : float => "" in
  let sr := fun s : string => s in
  fst (Scraper.search_cards fr sr (Cases.always Cases.two_streetwears) "Pikachu") <> [] /\
  Scraper.search_cards fr sr (Cases.always Cases.mixed_streetwears) "Pikachu" =
  ([], Some Scraper.AttributeError) /\
  exists d items,
    Cases.always Cases.two_streetwears
      (Scraper.api_url ++ "/search")
      [("keyword", JStr "Pikachu"); ("perPage", JInt 21); ("page", JInt 1)]
      Scraper.headers = Fetched (JDict d) /\
    lookup "streetwears" d = Some (JList items) /\
    forallb Scraper.is_dict items = true /\
    Scraper.search_cards fr sr (Cases.always Cases.two_streetwears) "Pikachu" =
    (map (fun item => Scraper.card_of_dict fr sr (Scraper.as_dict item)) items, None).
Proof.
  intros fr sr.
  assert (H : fst (Scraper.search_cards fr sr (Cases.always Cases.two_streetwears)
                     "Pikachu") <> []) by (vm_compute; discriminate).
  split; [exact H|]. split; [reflexivity|].
  exact (ScraperFacts.X12_cards_only_from_a_sequence_of_mappings fr sr
           (Cases.always Cases.two_streetwears) "Pikachu" H).
Defined.

(* ===================================================================== *)
(** ** [SnkrdunkScraper.get_recent_prices] *)
(* ===================================================================== *)

Module PricesFacts.

Import Scraper.

Section RecentPrices.

Variable float_repr : float -> string.
Variable str_repr : string -> string.
Variable digit_value : N -> option Z.
Variable int_max_str_digits : Z.
Variable requests_get_text : string -> dict -> fetched text.

Lemma int_of_digits_fails (s : text) (e : error) :
  int_of_digits digit_value int_max_str_digits s = Caught e -> e = InvalidInt.
Proof.
  unfold int_of_digits. destruct s as [|c s]; [intros [= <-]; reflexivity|].
  destruct (_ && _); [intros [= <-]; reflexivity|].
  destruct (digits_value digit_value (c :: s) 0); [discriminate|].
  intros [= <-]. reflexivity.
Qed.

Lemma int_of_digits_value (s : text) (n : Z) :
  int_of_digits digit_value int_max_str_digits s = Done n ->
  s <> [] /\ digits_value digit_value s 0 = Some n.
Proof.
  unfold int_of_digits. destruct s as [|c s]; [discriminate|].
  destruct (_ && _); [discriminate|].
  destruct (digits_value digit_value (c :: s) 0) as [m|]; [|discriminate].
  intros [= <-]. split; [discriminate|reflexivity].
Qed.

Lemma digits_value_nonneg (s : text) :
  (forall c d, digit_value c = Some d -> 0 <= d) ->
  forall acc n, 0 <= acc -> digits_value digit_value s acc = Some n -> 0 <= n.
Proof.
  intros Hdigit. induction s as [|c s IH]; intros acc n Hacc; cbn [digits_value].
  - intros [= <-]. exact Hacc.
  - destruct (digit_value c) as [d|] eqn:E; [|discriminate].
    apply IH. pose proof (Hdigit c d E). lia.
Qed.

(** A loop that ends normally has appended one price for each match. *)
Lemma collect_prices_done (matches : list text) :
  forall prices out,
    collect_prices digit_value int_max_str_digits matches prices = Done out ->
    exists added, out = prices ++ added /\ Forall2 (price_of digit_value) matches added.
Proof.
  induction matches as [|m matches IH]; intros prices out; cbn [collect_prices].
  - intros [= <-]. exists []. rewrite app_nil_r. split; [reflexivity|constructor].
  - destruct (int_of_digits digit_value int_max_str_digits (drop_commas m))
      as [price|e] eqn:E; [|discriminate].
    cbn [and_then]. intros Hrun.
    destruct (IH _ _ Hrun) as (added & -> & Hall).
    exists (price :: added). rewrite <- app_assoc. split; [reflexivity|].
    constructor; [exact (int_of_digits_value _ _ E)|exact Hall].
Qed.

(** A loop that ends with an exception ends with [ValueError]. *)
Lemma collect_prices_caught (matches : list text) :
  forall prices e,
    collect_prices digit_value int_max_str_digits matches prices = Caught e ->
    e = InvalidInt.
Proof.
  induction matches as [|m matches IH]; intros prices e; cbn [collect_prices];
    [discriminate|].
  destruct (int_of_digits digit_value int_max_str_digits (drop_commas m))
    as [price|e'] eqn:E; cbn [and_then].
  - apply IH.
  - intros [= <-]. exact (int_of_digits_fails _ _ E).
Qed.

(** A match without a digit ends the loop with an exception. *)
Lemma collect_prices_bad_match (matches : list text) (m : text) :
  In m matches -> drop_commas m = [] ->
  forall prices,
    collect_prices digit_value int_max_str_digits matches prices = Caught InvalidInt.
Proof.
  intros Hin Hbad. induction matches as [|m0 matches IH]; [destruct Hin|].
  intros prices. cbn [collect_prices].
  destruct (int_of_digits digit_value int_max_str_digits (drop_commas m0))
    as [price|e] eqn:E; cbn [and_then].
  - destruct Hin as [->|Hin]; [|apply IH; exact Hin].
    rewrite Hbad in E. discriminate E.
  - rewrite (int_of_digits_fails _ _ E). reflexivity.
Qed.

(** X13.  No price that [get_recent_prices] returns is negative, whatever
    the page holds: the pattern leaves no room for a sign. *)
Theorem X13_recent_prices_are_not_negative (item_id : json) :
  (forall c d, digit_value c = Some d -> 0 <= d) ->
  Forall (fun price => 0 <= price)
         (fst (get_recent_prices float_repr str_repr digit_value
                 int_max_str_digits requests_get_text item_id)).
Proof.
  intros Hdigit. unfold get_recent_prices.
  destruct (requests_get_text _ headers) as [html|message]; [|constructor].
  destruct (collect_prices digit_value int_max_str_digits (findall digit_value html) [])
    as [prices|e] eqn:E; [|constructor].
  cbn [fst]. destruct (collect_prices_done _ _ _ E) as (added & -> & Hall).
  clear E. cbn [app]. induction Hall as [|m price ms ps [_ Hm] _ IH]; constructor.
  - exact (digits_value_nonneg _ Hdigit 0 price ltac:(lia) Hm).
  - exact IH.
Qed.

(** X14.  One sale without a digit discards them all: when some match of
    the pattern on the page holds commas only, the result is the empty list
    and a [ValueError] is printed, whatever the other sales are. *)
Theorem X14_one_sale_without_digits_discards_all
    (item_id : json) (html : text) (m : text) :
  requests_get_text (used_url float_repr str_repr item_id) headers = Fetched html ->
  In m (findall digit_value html) ->
  drop_commas m = [] ->
  get_recent_prices float_repr str_repr digit_value int_max_str_digits
                    requests_get_text item_id =
  ([], Some InvalidInt).
Proof.
  intros Hreq Hin Hbad. unfold get_recent_prices.
  rewrite Hreq. rewrite (collect_prices_bad_match _ m Hin Hbad). reflexivity.
Qed.

(** X15.  When nothing is printed the page was fetched and the result has
    one price for each match of the pattern, in the order of the page: the
    number that the digits of the match spell, its commas dropped. *)
Theorem X15_one_price_for_each_sale (item_id : json) (prices : list Z) :
  get_recent_prices float_repr str_repr digit_value int_max_str_digits
                    requests_get_text item_id = (prices, None) ->
  exists html,
    requests_get_text (used_url float_repr str_repr item_id) headers = Fetched html /\
    Forall2 (price_of digit_value) (findall digit_value html) prices.
Proof.
  unfold get_recent_prices.
  destruct (requests_get_text (used_url float_repr str_repr item_id) headers) as [html|message];
    [|discriminate].
  destruct (collect_prices digit_value int_max_str_digits (findall digit_value html) [])
    as [out|e] eqn:E; [|discriminate].
  intros [= <-]. exists html. split; [reflexivity|].
  destruct (collect_prices_done _ _ _ E) as (added & -> & Hall). exact Hall.
Qed.

End RecentPrices.

End PricesFacts.

Lemma ascii_digit_nonneg (c : N) (d : Z) :
  Scraper.ascii_digit c = Some d -> 0 <= d.
Proof.
  unfold Scraper.ascii_digit.
  destruct ((48 <=? c)%N && (c <=? 57)%N) eqn:E; [|discriminate].
  intros [= <-]. apply andb_true_iff in E. destruct E as [E _].
  apply N.leb_le in E. lia.
Qed.

Lemma X13_recent_prices_are_not_negative_witness :
  (forall c d, Scraper.ascii_digit c = Some d -> 0 <= d) /\
  Forall (fun price => 0 <= price)
         (fst (Scraper.get_recent_prices (fun _ => "") (fun s => s)
                 Scraper.ascii_digit 4300 (Cases.page Cases.two_sales) (JInt 7))).
Proof.
  split; [exact ascii_digit_nonneg|].
  exact (PricesFacts.X13_recent_prices_are_not_negative (fun _ => "") (fun s => s)
           Scraper.ascii_digit 4300 (Cases.page Cases.two_sales) (JInt 7)
           ascii_digit_nonneg).
Defined.

(** The page ["SOLD US $71 SOLD US $,"]: the first sale is lost with the
    second. *)
Lemma X14_one_sale_without_digits_discards_all_witness :
  Scraper.findall Scraper.ascii_digit Cases.broken_sale =
  [Scraper.text_of "71"; [Scraper.comma]] /\
  Scraper.get_recent_prices (fun _ => "") (fun s => s) Scraper.ascii_digit 4300
                            (Cases.page Cases.broken_sale) (JInt 7) =
  ([], Some Scraper.InvalidInt).
Proof.
  assert (H : Scraper.findall Scraper.ascii_digit Cases.broken_sale =
              [Scraper.text_of "71"; [Scraper.comma]]) by (vm_compute; reflexivity).
  split; [exact H|].
  apply (PricesFacts.X14_one_sale_without_digits_discards_all
           (fun _ => "") (fun s => s) Scraper.ascii_digit 4300
           (Cases.page Cases.broken_sale) (JInt 7) Cases.broken_sale [Scraper.comma]).
  - reflexivity.
  - rewrite H. right. left. reflexivity.
  - reflexivity.
Defined.

(** The page ["<li>SOLD US $1,234</li><li>SOLD  US $71</li>"]. *)
Lemma X15_one_price_for_each_sale_witness :
  Scraper.get_recent_prices (fun _ => "") (fun s => s) Scraper.ascii_digit 4300
                            (Cases.page Cases.two_sales) (JInt 7) =
  ([1234; 71], None) /\
  exists html,
    Cases.page Cases.two_sales
      (Scraper.used_url (fun _ => "") (fun s => s) (JInt 7)) Scraper.headers =
    Fetched html /\
    Forall2 (Scraper.price_of Scraper.ascii_digit)
            (Scraper.findall Scraper.ascii_digit html) [1234; 71].
Proof.
  assert (H : Scraper.get_recent_prices (fun _ => "") (fun s => s)
                Scraper.ascii_digit 4300 (Cases.page Cases.two_sales) (JInt 7) =
              ([1234; 71], None)) by (vm_compute; reflexivity).
  split; [exact H|].
  exact (PricesFacts.X15_one_price_for_each_sale (fun _ => "") (fun s => s)
           Scraper.ascii_digit 4300 (Cases.page Cases.two_sales) (JInt 7)
           [1234; 71] H).
Defined.

(** The letter and the sign that follow [\s+] in the pattern are not white
    space and the comma is not either: the longest run of white space is
    the only one that can match. *)
Remark pattern_characters_are_not_spaces :
  Scraper.is_space 85 = false /\ Scraper.is_space Scraper.dollar = false /\
  Scraper.is_space Scraper.comma = false.
Proof. repeat split. Qed.
